(** * InitHelper: session and subscription initialisation

    A shallow embedding of [src/helpers/InitHelper.ts] of the OneSignal web
    SDK, and the properties of its option persistence ([saveInitOptions]),
    session guard ([internalInit]), subscription flow selector
    ([sessionInit]) and configuration merge ([getMergedLegacyConfig]).

    JavaScript values are an inductive type with the language's truthiness;
    objects used as dictionaries are finite maps from property names.  The
    functions that touch the page ([OneSignal.*] flags, [sessionStorage],
    the event bus, the prompts) are written in a small monad that threads
    the shared state, records every call made to a collaborator in program
    order, and registers the callbacks handed to promises and listeners as
    tasks which run later against the environment of that later time. *)

From Stdlib Require Import SpecFloat.
From stdpp Require Import gmap strings list fin_maps.

Set Warnings "-register-all".

(** ** JavaScript values *)

Module Js.

(** Numbers are IEEE 754 floating point numbers, as in the language: signed
    zeros, infinities, NaN, and finite values of a sign, a mantissa and an
    exponent. *)
Inductive JsValue : Type :=
| VUndefined
| VNull
| VBool (b : bool)
| VNum (f : spec_float)
| VStr (s : string)
| VObj (props : gmap string JsValue).

(** [ToBoolean]: [undefined], [null], [false], [+0], [-0], [NaN] and the
    empty string are falsy, everything else (every object too) is truthy. *)
Definition truthy (v : JsValue) : bool :=
  match v with
  | VUndefined | VNull => false
  | VBool b => b
  | VNum (S754_zero _) | VNum S754_nan => false
  | VNum _ => true
  | VStr s => negb (String.eqb s "")
  | VObj _ => true
  end.

(** [v === false] and [v === true]. *)
Definition is_false (v : JsValue) : bool :=
  match v with VBool false => true | _ => false end.

Definition is_true (v : JsValue) : bool :=
  match v with VBool true => true | _ => false end.

(** [o.k] on an object: the own property, [undefined] when it is missing.
    The property names read in this file are not those of a built-in
    prototype. *)
Definition get (o : gmap string JsValue) (k : string) : JsValue :=
  default VUndefined (o !! k).

(** [v[k]] on a value already known to be truthy: primitives have none of
    the properties read here. *)
Definition getProp (v : JsValue) (k : string) : JsValue :=
  match v with
  | VObj o => get o k
  | _ => VUndefined
  end.

(** [object-assign]: every own property of each source, left to right, is
    written onto the target by assignment ([to[key] = from[key]]), so a later
    source wins; a property whose value is [undefined] is copied like any
    other.  An own property of a source named [__proto__] is the exception:
    assigning to that name on a plain target runs the setter of
    [Object.prototype] and creates no property, so it never becomes an own
    property of the target.  The maps hold own properties only. *)
Definition assign (to from : gmap string JsValue) : gmap string JsValue :=
  delete "__proto__" from ∪ to.

Definition objectAssign (target : gmap string JsValue)
    (sources : list (gmap string JsValue)) : gmap string JsValue :=
  foldl assign target sources.

(** [String.prototype.toLowerCase] on strings of ASCII characters (Safari
    device tokens are hexadecimal): [A]-[Z] go to [a]-[z] and every other
    ASCII character stays.  Strings with characters outside that range are
    not in the model's domain; what is proved of a lower-cased string is
    proved for ASCII strings. *)
Definition ascii_toLowerCase (c : Ascii.ascii) : Ascii.ascii :=
  let n := Ascii.nat_of_ascii c in
  if (65 <=? n)%nat && (n <=? 90)%nat then Ascii.ascii_of_nat (n + 32) else c.

Fixpoint toLowerCase (s : string) : string :=
  match s with
  | EmptyString => EmptyString
  | String c r => String (ascii_toLowerCase c) (toLowerCase r)
  end.

End Js.

Import Js.

(** ** Errors, promises, collaborator calls *)

(** Modelled from the spec: the error classes of [../errors], which are not
    among the sources.  The popover rejects with one of a small fixed set of
    conditions (a redundant prompt, a dismissed prompt, an existing
    subscription) or with some other error; [InvalidStateError] carries its
    [reason], the name of an [InvalidStateReason] member. *)
Inductive JsError : Type :=
| InvalidStateError (reason : string)
| PermissionMessageDismissedError
| AlreadySubscribedError
| OtherError (name : string).

(** Modelled from the spec: the redundant-prompt reason,
    [InvalidStateReason[InvalidStateReason.RedundantPermissionMessage]] in the
    source; the reverse mapping of a numeric enum member is its name. *)
Definition RedundantPermissionMessage : string := "RedundantPermissionMessage".

(** How a promise (or a callback-taking call) of a collaborator ends: it is
    fulfilled, rejected, or never settles during the session. *)
Inductive Outcome (A : Type) : Type :=
| Fulfilled (a : A)
| Rejected (e : JsError)
| Pending.
Arguments Fulfilled {A} a.
Arguments Rejected {A} e.
Arguments Pending {A}.

(** [Promise.all]: fulfilled with all the values when every promise is,
    rejected as soon as one is rejected (the first of them in the array stands
    for whichever rejects first), otherwise still pending. *)
Definition Promise_all3 {A B C : Type}
    (p : Outcome A) (q : Outcome B) (r : Outcome C) : Outcome (A * B * C) :=
  match p, q, r with
  | Rejected e, _, _ => Rejected e
  | _, Rejected e, _ => Rejected e
  | _, _, Rejected e => Rejected e
  | Fulfilled a, Fulfilled b, Fulfilled c => Fulfilled (a, b, c)
  | _, _, _ => Pending
  end.

Inductive EventName : Type :=
| SDK_INITIALIZED
| PERMISSION_PROMPT_DISPLAYED.

Inductive LogLevel : Type := Debug | Info | Error.

(** A record handed to [Database.put]. *)
Inductive DbRecord : Type :=
| OptionRecord (key : string) (value : JsValue)
| IdRecord (type : string) (id : JsValue).

(** Everything the functions do to the shared state and to their
    collaborators, one constructor per call in the source.  A [Log] keeps the
    level and the text of the call's first argument as written. *)
Inductive Action : Type :=
| Log (level : LogLevel) (text : string)
| EventTrigger (e : EventName)
| SetSessionInitAlreadyRunning (b : bool)
| SessionStorageSetItem (key value : string)
| DatabaseGet (table key : string)
| DatabasePut (table : string) (record : DbRecord)
| GetAppId
| IsPushNotificationsEnabled
| GetNotificationPermission
| SafariRequestPermission (url : string) (websitePushID : JsValue) (app_id : JsValue)
| RegisterWithOneSignal (appId : JsValue) (endpointOrToken : string)
| BeginTemporaryBrowserSession
| TriggerNotificationPermissionChanged (updateIfIdentical : option bool)
| CheckAndTriggerNotificationPermissionChanged
| NewSubscriptionModalHost (appId : JsValue) (options : gmap string JsValue)
| SubscriptionModalHostLoad
| NotificationRequestPermission
| RegisterForW3CPush (options : gmap string JsValue)
| MarkHttpsNativePromptDismissed
| ShowHttpPrompt
| UpdateServiceWorker
| OnceVisibilityChange
| DestroyEventListener.

(** The callbacks the source hands to a promise, a prompt or a listener; each
    runs after the call that registered it has returned. *)
Inductive Task : Type :=
| SafariPermissionRequest
| ModalHostLoad (options : gmap string JsValue)
| NativePromptCallback (options : gmap string JsValue)
| HttpPromptCatch
| VisibilityChangeListener.

(** ** The shared state and the environment *)

(** The mutable state the functions share: the [OneSignal] globals they read
    and write, and the tab's [sessionStorage]. *)
Record World : Type := mkWorld {
  config : gmap string JsValue;
  _sessionInitAlreadyRunning : bool;
  subscriptionModalHost : option (JsValue * gmap string JsValue);
  sessionStorage : gmap string string
}.

(** The response of the Safari permission dialog; [deviceToken] is missing
    when permission was not granted. *)
Record PushResponse : Type := { deviceToken : option string }.

(** What the browser and the collaborators answer while one function or one
    callback runs. *)
Record Env : Type := mkEnv {
  browser_safari : bool;
  notification_permission : string;
  visibilityState : string;
  serviceWorker_in_navigator : bool;
  isUsingSubscriptionWorkaround : bool;
  wasHttpsNativePromptDismissed : bool;
  isHttpPromptAlreadyShown : bool;
  oneSignalApiUrl : string;
  db_get_appId : Outcome JsValue;
  getAppId : Outcome JsValue;
  isPushNotificationsEnabled : Outcome JsValue;
  getNotificationPermission : Outcome JsValue;
  showHttpPrompt : Outcome JsValue;
  safari_pushResponse : option PushResponse;
  requestPermission_result : option string
}.

(** ** The effect monad *)

(** How a call ends: it returns, it throws (for an [async] function or a
    promise callback: its promise is rejected), or it stays suspended on a
    promise that never settles. *)
Inductive Completion (A : Type) : Type :=
| Returned (a : A)
| Threw (e : JsError)
| Suspended.
Arguments Returned {A} a.
Arguments Threw {A} e.
Arguments Suspended {A}.

Record Step (A : Type) : Type := mkStep {
  completion : Completion A;
  world : World;
  trace : list Action;
  registered : list Task
}.
Arguments mkStep {A}.
Arguments completion {A}.
Arguments world {A}.
Arguments trace {A}.
Arguments registered {A}.

Definition Eff (A : Type) : Type := World -> Step A.

#[global] Instance eff_ret : MRet Eff := fun A a w => mkStep (Returned a) w [] [].

#[global] Instance eff_bind : MBind Eff := fun A B k m w =>
  let r := m w in
  match completion r with
  | Returned a =>
      let r' := k a (world r) in
      mkStep (completion r') (world r') (trace r ++ trace r')
             (registered r ++ registered r')
  | Threw e => mkStep (Threw e) (world r) (trace r) (registered r)
  | Suspended => mkStep Suspended (world r) (trace r) (registered r)
  end.

Definition act (a : Action) : Eff unit :=
  fun w => mkStep (Returned tt) w [a] [].

Definition read {A : Type} (f : World -> A) : Eff A :=
  fun w => mkStep (Returned (f w)) w [] [].

Definition modify (f : World -> World) : Eff unit :=
  fun w => mkStep (Returned tt) (f w) [] [].

Definition register (t : Task) : Eff unit :=
  fun w => mkStep (Returned tt) w [] [t].

Definition throw {A : Type} (e : JsError) : Eff A :=
  fun w => mkStep (Threw e) w [] [].

(** [await p]: the value of a fulfilled promise, the error of a rejected one
    thrown, and no continuation while it is pending. *)
Definition await {A : Type} (p : Outcome A) : Eff A :=
  fun w =>
    match p with
    | Fulfilled a => mkStep (Returned a) w [] []
    | Rejected e => mkStep (Threw e) w [] []
    | Pending => mkStep Suspended w [] []
    end.

(** A step with one more action in front, and with one more task. *)
Definition after_action {A : Type} (a : Action) (r : Step A) : Step A :=
  mkStep (completion r) (world r) (a :: trace r) (registered r).

Definition after_register {A : Type} (t : Task) (r : Step A) : Step A :=
  mkStep (completion r) (world r) (trace r) (t :: registered r).

(** [Array.prototype.forEach]. *)
Fixpoint forEach {A : Type} (l : list A) (f : A -> Eff unit) : Eff unit :=
  match l with
  | [] => mret tt
  | x :: r => f x;; forEach r f
  end.

(** ** State accessors *)

Definition set_sessionInitAlreadyRunning (b : bool) : Eff unit :=
  modify (fun w => mkWorld (config w) b (subscriptionModalHost w) (sessionStorage w));;
  act (SetSessionInitAlreadyRunning b).

Definition set_subscriptionModalHost (appId : JsValue)
    (options : gmap string JsValue) : Eff unit :=
  modify (fun w => mkWorld (config w) (_sessionInitAlreadyRunning w)
                           (Some (appId, options)) (sessionStorage w));;
  act (NewSubscriptionModalHost appId options).

(** [sessionStorage.getItem(k)]: the stored string, or [null]. *)
Definition getItem (w : World) (k : string) : JsValue :=
  match sessionStorage w !! k with
  | Some s => VStr s
  | None => VNull
  end.

Definition setItem (k v : string) : Eff unit :=
  modify (fun w => mkWorld (config w) (_sessionInitAlreadyRunning w)
                           (subscriptionModalHost w) (<[k:=v]> (sessionStorage w)));;
  act (SessionStorageSetItem k v).

(** [x == s] for [x] a result of [getItem] and [s] a string: [null] equals
    no string. *)
Definition loose_eq_string (x : JsValue) (s : string) : bool :=
  match x with
  | VStr t => String.eqb t s
  | _ => false
  end.

Definition Database_put (table : string) (record : DbRecord) : Eff unit :=
  act (DatabasePut table record).

(** ** InitHelper *)

Module InitHelper.

Definition webhookEvents : list string :=
  ["notification.displayed"; "notification.clicked"; "notification.dismissed"].

(** [saveInitOptions]: the puts are issued in this order; the promise
    returned is [Promise.all] of theirs. *)
Definition saveInitOptions : Eff unit :=
  cfg ← read config;
  (if is_false (get cfg "persistNotification") then
     Database_put "Options" (OptionRecord "persistNotification" (VBool false))
   else
     if is_true (get cfg "persistNotification") then
       Database_put "Options" (OptionRecord "persistNotification" (VStr "force"))
     else
       Database_put "Options" (OptionRecord "persistNotification" (VBool true)));;
  let webhookOptions := get cfg "webhooks" in
  forEach webhookEvents (fun event =>
    if truthy webhookOptions && truthy (getProp webhookOptions event) then
      Database_put "Options"
        (OptionRecord ("webhooks." +:+ event) (getProp webhookOptions event))
    else
      Database_put "Options" (OptionRecord ("webhooks." +:+ event) (VBool false)));;
  (if truthy webhookOptions && truthy (getProp webhookOptions "cors") then
     Database_put "Options" (OptionRecord "webhooks.cors" (VBool true))
   else
     Database_put "Options" (OptionRecord "webhooks.cors" (VBool false)));;
  (if truthy (get cfg "notificationClickHandlerMatch") then
     Database_put "Options"
       (OptionRecord "notificationClickHandlerMatch"
                     (get cfg "notificationClickHandlerMatch"))
   else
     Database_put "Options" (OptionRecord "notificationClickHandlerMatch" (VStr "exact")));;
  (if truthy (get cfg "notificationClickHandlerAction") then
     Database_put "Options"
       (OptionRecord "notificationClickHandlerAction"
                     (get cfg "notificationClickHandlerAction"))
   else
     Database_put "Options"
       (OptionRecord "notificationClickHandlerAction" (VStr "navigate")));;
  (if is_false (get cfg "serviceWorkerRefetchRequests") then
     Database_put "Options" (OptionRecord "serviceWorkerRefetchRequests" (VBool false))
   else
     Database_put "Options" (OptionRecord "serviceWorkerRefetchRequests" (VBool true))).

(** The handler of [OneSignal.showHttpPrompt().catch(...)]: [&&] binds
    tighter than [||]. *)
Definition httpPrompt_recoverable (e : JsError) : bool :=
  match e with
  | InvalidStateError reason => String.eqb reason RedundantPermissionMessage
  | PermissionMessageDismissedError => true
  | AlreadySubscribedError => true
  | OtherError _ => false
  end.

(** [sessionInit(options)].  It is not an [async] function and returns no
    promise: the promise chains it starts are left to the tasks it
    registers. *)
Definition sessionInit (env : Env) (options : gmap string JsValue) : Eff unit :=
  act (Log Debug "Called %csessionInit(${JSON.stringify(options)})");;
  running ← read _sessionInitAlreadyRunning;
  if (running : bool) then
    act (Log Debug "Returning from sessionInit because it has already been called.")
  else
    set_sessionInitAlreadyRunning true;;
    cfg ← read config;
    (if browser_safari env then
       if truthy (get cfg "safari_web_id") then
         act GetAppId;;
         register SafariPermissionRequest
       else mret tt
     else if truthy (get options "modalPrompt") && truthy (get options "fromRegisterFor") then
       act GetAppId;;
       act IsPushNotificationsEnabled;;
       act GetNotificationPermission;;
       register (ModalHostLoad options)
     else if serviceWorker_in_navigator env && negb (isUsingSubscriptionWorkaround env) then
       if truthy (get options "__sdkCall") && negb (wasHttpsNativePromptDismissed env) then
         act (EventTrigger PERMISSION_PROMPT_DISPLAYED);;
         act NotificationRequestPermission;;
         register (NativePromptCallback options)
       else if truthy (get options "__sdkCall") && wasHttpsNativePromptDismissed env then
         act (Log Debug "OneSignal: Not automatically showing native HTTPS prompt because the user previously dismissed it.");;
         set_sessionInitAlreadyRunning false
       else
         act (RegisterForW3CPush options)
     else
       (if negb (is_true (get cfg "autoRegister")) then
          act (Log Debug "OneSignal: Not automatically showing popover because autoRegister is not specifically true.")
        else mret tt);;
       (if isHttpPromptAlreadyShown env then
          act (Log Debug "OneSignal: Not automatically showing popover because it was previously shown in the same session.")
        else mret tt);;
       (if is_true (get cfg "autoRegister") && negb (isHttpPromptAlreadyShown env) then
          act ShowHttpPrompt;;
          register HttpPromptCatch
        else mret tt));;
    act (EventTrigger SDK_INITIALIZED).

(** The callbacks of [sessionInit] and [internalInit], run when the promise
    settles, the dialog answers or the event fires, against the environment
    of that moment.  A callback that throws leaves its promise rejected.
    The [visibilitychange] listener goes through the [once] helper, which is
    not among the sources; as the spec has it, the listener waits for the
    first event at which the document is visible, removes itself and calls
    the next stage once. *)
Definition run_task (env : Env) (t : Task) : Eff unit :=
  match t with
  | SafariPermissionRequest =>
      (* MainHelper.getAppId().then(appId => requestPermission(..., cb)) *)
      appId ← await (getAppId env);
      cfg ← read config;
      act (SafariRequestPermission (oneSignalApiUrl env +:+ "/safari")
                                   (get cfg "safari_web_id") appId);;
      match safari_pushResponse env with
      | None => mret tt
      | Some pushResponse =>
          act (Log Info "Safari Registration Result:");;
          match deviceToken pushResponse with
          | Some token =>
              if negb (String.eqb token "") then
                act (RegisterWithOneSignal appId (toLowerCase token))
              else act BeginTemporaryBrowserSession
          | None => act BeginTemporaryBrowserSession
          end;;
          act (TriggerNotificationPermissionChanged None)
      end
  | ModalHostLoad options =>
      (* Promise.all([...]).then(([appId, ...]) => ...) *)
      r ← await (Promise_all3 (getAppId env) (isPushNotificationsEnabled env)
                              (getNotificationPermission env));
      let appId := r.1.1 in
      set_subscriptionModalHost appId options;;
      act SubscriptionModalHostLoad
  | NativePromptCallback options =>
      (* the callback of window.Notification.requestPermission *)
      match requestPermission_result env with
      | None => mret tt
      | Some permission =>
          act CheckAndTriggerNotificationPermissionChanged;;
          if String.eqb permission "granted" then
            act (RegisterForW3CPush options)
          else if String.eqb (notification_permission env) "default" then
            act (TriggerNotificationPermissionChanged (Some true));;
            act MarkHttpsNativePromptDismissed
          else mret tt
      end
  | HttpPromptCatch =>
      (* OneSignal.showHttpPrompt().catch(e => ...) *)
      match showHttpPrompt env with
      | Fulfilled _ => mret tt
      | Pending => await Pending
      | Rejected e =>
          if httpPrompt_recoverable e then
            act (Log Debug "[Prompt Not Showing]")
          else throw e
      end
  | VisibilityChangeListener =>
      (* the listener stays until it destroys itself *)
      if String.eqb (visibilityState env) "visible" then
        act DestroyEventListener;;
        sessionInit env {["__sdkCall" := VBool true]}
      else register VisibilityChangeListener
  end.

(** [internalInit()], an [async] function. *)
Definition internalInit (env : Env) : Eff unit :=
  act (Log Debug "Called %cinternalInit()");;
  act (DatabaseGet "Ids" "appId");;
  appId ← await (db_get_appId env);
  w ← read (fun w => w);
  let cfg := config w in
  let permission := notification_permission env in
  if truthy (getItem w "ONE_SIGNAL_SESSION")
     && negb (truthy (get cfg "subdomainName"))
     && (String.eqb permission "denied"
         || loose_eq_string (getItem w "ONE_SIGNAL_NOTIFICATION_PERMISSION") permission)
  then
    act (EventTrigger SDK_INITIALIZED)
  else
    setItem "ONE_SIGNAL_NOTIFICATION_PERMISSION" permission;;
    if browser_safari env && is_false (get cfg "autoRegister") then
      act (Log Debug "On Safari and autoregister is false, skipping sessionInit().");;
      if negb (isUsingSubscriptionWorkaround env) then
        act (EventTrigger SDK_INITIALIZED)
      else mret tt
    else if is_false (get cfg "autoRegister") && negb (truthy (get cfg "subdomainName")) then
      act (Log Debug "Skipping internal init. Not auto-registering and no subdomain.");;
      act (EventTrigger SDK_INITIALIZED);;
      act IsPushNotificationsEnabled;;
      isPushEnabled ← await (isPushNotificationsEnabled env);
      if truthy isPushEnabled && negb (isUsingSubscriptionWorkaround env) then
        act (Log Info "Because the user is already subscribed and has enabled notifications, we will re-register their GCM token.");;
        act (RegisterForW3CPush ∅)
      else
        act UpdateServiceWorker
    else if negb (String.eqb (visibilityState env) "visible") then
      act OnceVisibilityChange;;
      register VisibilityChangeListener
    else
      sessionInit env {["__sdkCall" := VBool true]}.

(** The server's [AppConfig], as far as the merge reads it. *)
Record AppConfig : Type := mkAppConfig {
  subdomain : JsValue;
  safariWebId : JsValue;
  cookieSyncEnabled : JsValue
}.

(** [getMergedLegacyConfig(userConfig, serverConfig)], for a [userConfig]
    that is an object. *)
Definition getMergedLegacyConfig (userConfig : gmap string JsValue)
    (serverConfig : AppConfig) : gmap string JsValue :=
  let finalConfig :=
    objectAssign {[ "path" := VStr "/" ]}
      [ {[ "subdomainName" := subdomain serverConfig ]};
        {[ "safari_web_id" := safariWebId serverConfig ]};
        {[ "cookieSyncEnabled" := cookieSyncEnabled serverConfig ]};
        userConfig ] in
  if negb (truthy (get userConfig "subdomainName")) then
    delete "subdomainName" finalConfig
  else finalConfig.

End InitHelper.

Import InitHelper.

(** ** Reading a trace *)

(** The events put on the event bus, in order. *)
Definition events (tr : list Action) : list EventName :=
  omap (fun a => match a with EventTrigger e => Some e | _ => None end) tr.

Definition is_SDK_INITIALIZED (a : Action) : bool :=
  match a with EventTrigger SDK_INITIALIZED => true | _ => false end.

(** How many times the terminal event is triggered. *)
Definition initialized_count (tr : list Action) : nat :=
  length (filter (fun a => is_SDK_INITIALIZED a = true) tr).

(** Every action but a log line: a write to shared state or storage, an
    event, a call to a prompt, a registration or any other collaborator. *)
Definition observable (a : Action) : bool :=
  match a with Log _ _ => false | _ => true end.

Definition side_effects (tr : list Action) : list Action :=
  filter (fun a => observable a = true) tr.

(** Modelled from the spec: the Option Persistence Gateway ([Database], not
    among the sources), a durable key/value store whose [put(table, record)]
    stores the record's value under its key.  [Options_after tr db] is the
    [Options] table after the puts of [tr], starting from [db]. *)
Definition Options_put (db : gmap string JsValue) (a : Action) : gmap string JsValue :=
  match a with
  | DatabasePut table (OptionRecord k v) =>
      if String.eqb table "Options" then <[k:=v]> db else db
  | _ => db
  end.

Definition Options_after (tr : list Action) (db : gmap string JsValue)
    : gmap string JsValue :=
  foldl Options_put db tr.

(** Whether the in-page popover was asked to show. *)
Definition shows_http_prompt (tr : list Action) : bool :=
  existsb (fun a => match a with ShowHttpPrompt => true | _ => false end) tr.

(** ** Sample pages *)

(** An HTTPS page in a browser with service workers, at its first visit. *)
Definition https_page : Env := {|
  browser_safari := false;
  notification_permission := "default";
  visibilityState := "visible";
  serviceWorker_in_navigator := true;
  isUsingSubscriptionWorkaround := false;
  wasHttpsNativePromptDismissed := false;
  isHttpPromptAlreadyShown := false;
  oneSignalApiUrl := "https://onesignal.com/api/v1";
  db_get_appId := Fulfilled (VStr "b2f7f966-d8cc-11e4-bed1-df8f05be55ba");
  getAppId := Fulfilled (VStr "b2f7f966-d8cc-11e4-bed1-df8f05be55ba");
  isPushNotificationsEnabled := Fulfilled (VBool true);
  getNotificationPermission := Fulfilled (VStr "default");
  showHttpPrompt := Pending;
  safari_pushResponse := None;
  requestPermission_result := Some "granted"
|}.

(** The same site on Safari. *)
Definition safari_page : Env := {|
  browser_safari := true;
  notification_permission := "default";
  visibilityState := "visible";
  serviceWorker_in_navigator := false;
  isUsingSubscriptionWorkaround := false;
  wasHttpsNativePromptDismissed := false;
  isHttpPromptAlreadyShown := false;
  oneSignalApiUrl := "https://onesignal.com/api/v1";
  db_get_appId := Fulfilled (VStr "b2f7f966-d8cc-11e4-bed1-df8f05be55ba");
  getAppId := Fulfilled (VStr "b2f7f966-d8cc-11e4-bed1-df8f05be55ba");
  isPushNotificationsEnabled := Fulfilled (VBool true);
  getNotificationPermission := Fulfilled (VStr "granted");
  showHttpPrompt := Pending;
  safari_pushResponse := Some {| deviceToken := Some "03D5D4A2EBCE1EE2" |};
  requestPermission_result := None
|}.

(** An HTTP page that subscribes through a subdomain, whose popover fails
    with an error of its own. *)
Definition http_page : Env := {|
  browser_safari := false;
  notification_permission := "default";
  visibilityState := "visible";
  serviceWorker_in_navigator := true;
  isUsingSubscriptionWorkaround := true;
  wasHttpsNativePromptDismissed := false;
  isHttpPromptAlreadyShown := false;
  oneSignalApiUrl := "https://onesignal.com/api/v1";
  db_get_appId := Fulfilled (VStr "b2f7f966-d8cc-11e4-bed1-df8f05be55ba");
  getAppId := Fulfilled (VStr "b2f7f966-d8cc-11e4-bed1-df8f05be55ba");
  isPushNotificationsEnabled := Fulfilled (VBool false);
  getNotificationPermission := Fulfilled (VStr "default");
  showHttpPrompt := Rejected (OtherError "TypeError");
  safari_pushResponse := None;
  requestPermission_result := None
|}.

(** The HTTPS page when the browser refuses to open the database (private
    browsing, for one): the read of the application id is rejected. *)
Definition https_page_without_database : Env := {|
  browser_safari := false;
  notification_permission := "default";
  visibilityState := "visible";
  serviceWorker_in_navigator := true;
  isUsingSubscriptionWorkaround := false;
  wasHttpsNativePromptDismissed := false;
  isHttpPromptAlreadyShown := false;
  oneSignalApiUrl := "https://onesignal.com/api/v1";
  db_get_appId := Rejected (OtherError "InvalidStateError");
  getAppId := Rejected (OtherError "InvalidStateError");
  isPushNotificationsEnabled := Rejected (OtherError "InvalidStateError");
  getNotificationPermission := Fulfilled (VStr "default");
  showHttpPrompt := Pending;
  safari_pushResponse := None;
  requestPermission_result := Some "granted"
|}.

(** A tab in which nothing ran yet, with the given configuration. *)
Definition new_tab (cfg : gmap string JsValue) : World :=
  mkWorld cfg false None ∅.

(** ** More to read from a trace *)

(** Whether every character of a string is in the ASCII range, the range
    on which [toLowerCase] is [String.prototype.toLowerCase]. *)
Fixpoint is_ascii (s : string) : bool :=
  match s with
  | EmptyString => true
  | String c r => (Ascii.nat_of_ascii c <? 128)%nat && is_ascii r
  end.

(** The eight options [saveInitOptions] writes. *)
Definition savedOptions : list string :=
  [ "persistNotification";
    "webhooks.notification.displayed";
    "webhooks.notification.clicked";
    "webhooks.notification.dismissed";
    "webhooks.cors";
    "notificationClickHandlerMatch";
    "notificationClickHandlerAction";
    "serviceWorkerRefetchRequests" ].

(** Whether the browser's own permission dialog was asked for, whether the
    prompt was announced on the event bus, and whether push registration was
    started directly. *)
Definition requests_native_permission (tr : list Action) : bool :=
  existsb (fun a => match a with NotificationRequestPermission => true | _ => false end) tr.

Definition announces_prompt (tr : list Action) : bool :=
  existsb (fun a => match a with
                    | EventTrigger PERMISSION_PROMPT_DISPLAYED => true
                    | _ => false
                    end) tr.

Definition registers_for_push (tr : list Action) : bool :=
  existsb (fun a => match a with RegisterForW3CPush _ => true | _ => false end) tr.

(** The first call of each subscription flow. *)
Definition starts_flow (a : Action) : bool :=
  match a with
  | GetAppId | NotificationRequestPermission | RegisterForW3CPush _ | ShowHttpPrompt => true
  | _ => false
  end.

(** The branch of [sessionInit] for an SDK call after the user dismissed the
    native prompt: not Safari, no modal prompt asked for, native push
    available. *)
Definition prompt_was_dismissed (env : Env) (options : gmap string JsValue) : bool :=
  negb (browser_safari env)
  && negb (truthy (get options "modalPrompt") && truthy (get options "fromRegisterFor"))
  && (serviceWorker_in_navigator env && negb (isUsingSubscriptionWorkaround env))
  && (truthy (get options "__sdkCall") && wasHttpsNativePromptDismissed env).

(** [n] calls of [sessionInit] one after the other, the page answering the
    same each time: the state they leave and all they did. *)
Fixpoint sessionInit_calls (env : Env) (options : gmap string JsValue) (n : nat)
    (w : World) : World * list Action :=
  match n with
  | 0 => (w, [])
  | S n' =>
      let r := sessionInit env options w in
      let rest := sessionInit_calls env options n' (world r) in
      (rest.1, trace r ++ rest.2)
  end.

(** A registration of the device, on either push service. *)
Definition is_registration (a : Action) : bool :=
  match a with
  | RegisterForW3CPush _ | RegisterWithOneSignal _ _ => true
  | _ => false
  end.

(** A call of [sessionInit] together with the callback it leaves behind (it
    leaves at most one), run when the page has answered: the final state, all
    the actions in order, and how the callback's promise ends. *)
Definition sessionInit_settled (env : Env) (options : gmap string JsValue)
    (w : World) : Step unit :=
  let r := sessionInit env options w in
  match registered r with
  | [] => r
  | t :: _ =>
      let rt := run_task env t (world r) in
      mkStep (completion rt) (world rt) (trace r ++ trace rt) (registered rt)
  end.

(** ** Saving the page title *)

(** [a || b]: the first operand when it is truthy, otherwise the second. *)
Definition js_or (a b : JsValue) : JsValue := if truthy a then a else b.

(** [initSaveState(overridingPageTitle)], an [async] function.  The page
    answers with [document.title] and the database with the outcome of its
    two puts, each awaited before the next step. *)
Definition initSaveState (env : Env) (document_title : string)
    (put_appId put_pageTitle : Outcome JsValue) (overridingPageTitle : JsValue)
    : Eff unit :=
  act GetAppId;;
  appId ← await (getAppId env);
  act (DatabasePut "Ids" (IdRecord "appId" appId));;
  _ ← await put_appId;
  let initialPageTitle :=
    js_or (js_or overridingPageTitle (VStr document_title)) (VStr "Notification") in
  act (DatabasePut "Options" (OptionRecord "pageTitle" initialPageTitle));;
  _ ← await put_pageTitle;
  act (Log Info "OneSignal: Set pageTitle to be '${initialPageTitle}'.").

(** ** After initialisation: the page-level state and its effects *)

(** [onSdkInitialized] and the two functions it starts with reach further
    than the flow selector: two more [OneSignal] flags, the in-memory
    [LimitStore], the permissions API, the service worker registration and
    the ambient widgets.  Their calls extend [Action], their callbacks
    [Task], their state [World]. *)
Inductive PageAction : Type :=
| Core (a : Action)
| GetUserId
| IsOptedOut
| LimitStorePut (key : string) (value : JsValue)
| SetUsingNativePermissionHook (b : bool)
| PermissionsQuery
| SetPermissionStatusOnChange
| SetDoNotShowWelcomeNotification (b : bool)
| HasInsecureParentOrigin
| ServiceWorkerGetRegistration
| EstablishServiceWorkerChannel
| ShowNotifyButton
| IsPushNotificationsEnabledWithCallback
| RegisterWithOneSignalNull (appId : JsValue)
| CheckAndDoHttpPermissionRequest
| CookieSyncerInstall.

Inductive PageTask : Type :=
| CoreTask (t : Task)
| StoreInitialValuesThen
| PermissionsQueryThen
| PermissionStatusOnChange
| GetRegistrationThen
| SafariPushEnabledCallback
| HttpPushEnabledCallback
| HttpGetAppIdThen.

Record PageWorld : Type := mkPageWorld {
  core : World;
  __doNotShowWelcomeNotification : bool;
  _usingNativePermissionHook : bool
}.

(** How [navigator.serviceWorker.getRegistration()] ends: with a
    registration whose [active] worker is there or not, with no registration,
    or rejected with an error whose [code] (an unsigned short on a
    [DOMException], missing on other errors) the handler reads. *)
Inductive RegistrationOutcome : Type :=
| RegistrationFound (active : bool)
| NoRegistration
| RegistrationRejected (code : option N)
| RegistrationPending.

(** What the browser and the collaborators answer to these functions, on
    top of [Env].  [Number_browser_version] is [Number(Browser.version)], a
    number in the canonical form of its binary64 value, or NaN. *)
Record PageEnv : Type := mkPageEnv {
  page : Env;
  getUserId : Outcome JsValue;
  isOptedOut : Outcome JsValue;
  navigator_permissions : bool;
  permissions_query : Outcome JsValue;
  browser_firefox : bool;
  Number_browser_version : spec_float;
  navigator_serviceWorker : bool;
  location_protocol : string;
  hasInsecureParentOrigin : Outcome JsValue;
  getRegistration : RegistrationOutcome;
  windowEnv_is_OneSignalProxyFrame : bool;
  isContinuingBrowserSession : bool
}.

Record PageStep (A : Type) : Type := mkPageStep {
  page_completion : Completion A;
  page_world : PageWorld;
  page_trace : list PageAction;
  page_registered : list PageTask
}.
Arguments mkPageStep {A}.
Arguments page_completion {A}.
Arguments page_world {A}.
Arguments page_trace {A}.
Arguments page_registered {A}.

Definition PageEff (A : Type) : Type := PageWorld -> PageStep A.

#[global] Instance page_ret : MRet PageEff :=
  fun A a w => mkPageStep (Returned a) w [] [].

#[global] Instance page_bind : MBind PageEff := fun A B k m w =>
  let r := m w in
  match page_completion r with
  | Returned a =>
      let r' := k a (page_world r) in
      mkPageStep (page_completion r') (page_world r')
                 (page_trace r ++ page_trace r')
                 (page_registered r ++ page_registered r')
  | Threw e => mkPageStep (Threw e) (page_world r) (page_trace r) (page_registered r)
  | Suspended => mkPageStep Suspended (page_world r) (page_trace r) (page_registered r)
  end.

(** A step with one more action in front, and with one more task. *)
Definition page_after_action {A : Type} (a : PageAction) (r : PageStep A) : PageStep A :=
  mkPageStep (page_completion r) (page_world r) (a :: page_trace r) (page_registered r).

Definition page_after_register {A : Type} (t : PageTask) (r : PageStep A) : PageStep A :=
  mkPageStep (page_completion r) (page_world r) (page_trace r) (t :: page_registered r).

(** A computation of the flow selector's monad, run on the [core] state. *)
Definition lift {A : Type} (m : Eff A) : PageEff A :=
  fun w =>
    let r := m (core w) in
    mkPageStep (completion r)
      (mkPageWorld (world r) (__doNotShowWelcomeNotification w)
                   (_usingNativePermissionHook w))
      (Core <$> trace r) (CoreTask <$> registered r).

Definition page_act (a : PageAction) : PageEff unit :=
  fun w => mkPageStep (Returned tt) w [a] [].

Definition page_register (t : PageTask) : PageEff unit :=
  fun w => mkPageStep (Returned tt) w [] [t].

Definition set_usingNativePermissionHook (b : bool) : PageEff unit :=
  fun w =>
    mkPageStep (Returned tt)
      (mkPageWorld (core w) (__doNotShowWelcomeNotification w) b)
      [SetUsingNativePermissionHook b] [].

Definition set_doNotShowWelcomeNotification (b : bool) : PageEff unit :=
  fun w =>
    mkPageStep (Returned tt)
      (mkPageWorld (core w) b (_usingNativePermissionHook w))
      [SetDoNotShowWelcomeNotification b] [].

Definition Promise_all4 {A B C D : Type}
    (p : Outcome A) (q : Outcome B) (r : Outcome C) (s : Outcome D)
    : Outcome (A * B * C * D) :=
  match p, q, r, s with
  | Rejected e, _, _, _ => Rejected e
  | _, Rejected e, _, _ => Rejected e
  | _, _, Rejected e, _ => Rejected e
  | _, _, _, Rejected e => Rejected e
  | Fulfilled a, Fulfilled b, Fulfilled c, Fulfilled d => Fulfilled (a, b, c, d)
  | _, _, _, _ => Pending
  end.

(** Modelled from the spec: [v === NotificationPermission.Granted], for the
    [NotificationPermission] model that is not among the sources; the
    permission is one of ["default"], ["granted"] and ["denied"]. *)
Definition is_Granted (v : JsValue) : bool :=
  match v with
  | VStr s => String.eqb s "granted"
  | _ => false
  end.

(** The number 45, in the canonical form of its binary64 value. *)
Definition forty_five : spec_float := S754_finite false 6333186975989760 (-47).

(** [storeInitialValues()]: the four reads are started at once; the rest
    waits for all of them. *)
Definition storeInitialValues : PageEff unit :=
  lift (act IsPushNotificationsEnabled);;
  lift (act GetNotificationPermission);;
  page_act GetUserId;;
  page_act IsOptedOut;;
  page_register StoreInitialValuesThen.

(** [installNativePromptPermissionChangedHook()]. *)
Definition installNativePromptPermissionChangedHook (env : PageEnv) : PageEff unit :=
  if navigator_permissions env
     && negb (browser_firefox env && SFleb (Number_browser_version env) forty_five)
  then
    set_usingNativePermissionHook true;;
    page_act PermissionsQuery;;
    page_register PermissionsQueryThen
  else mret tt.

(** [onSdkInitialized()], an [async] function.  [&&] evaluates its third
    operand, the awaited check of the parent origin, only when the first two
    hold. *)
Definition onSdkInitialized (env : PageEnv) : PageEff unit :=
  storeInitialValues;;
  installNativePromptPermissionChangedHook env;;
  lift (act GetNotificationPermission);;
  permission ← lift (await (getNotificationPermission (page env)));
  (if is_Granted permission then set_doNotShowWelcomeNotification true else mret tt);;
  (if navigator_serviceWorker env && String.eqb (location_protocol env) "https:" then
     page_act HasInsecureParentOrigin;;
     insecure ← lift (await (hasInsecureParentOrigin env));
     if negb (truthy insecure) then
       page_act ServiceWorkerGetRegistration;;
       page_register GetRegistrationThen
     else mret tt
   else mret tt);;
  page_act ShowNotifyButton;;
  cfg ← lift (read config);
  (if browser_safari (page env) && is_false (get cfg "autoRegister") then
     page_act IsPushNotificationsEnabledWithCallback;;
     page_register SafariPushEnabledCallback
   else mret tt);;
  (if isUsingSubscriptionWorkaround (page env) && negb (isContinuingBrowserSession env) then
     lift (act (Log Debug "(${SdkEnvironment.getWindowEnv().toString()}) Updating session info for HTTP site."));;
     page_act IsPushNotificationsEnabledWithCallback;;
     page_register HttpPushEnabledCallback
   else mret tt);;
  page_act CheckAndDoHttpPermissionRequest;;
  page_act CookieSyncerInstall.

(** The callbacks of the three functions. *)
Definition run_page_task (env : PageEnv) (t : PageTask) : PageEff unit :=
  match t with
  | CoreTask t => lift (run_task (page env) t)
  | StoreInitialValuesThen =>
      r ← lift (await (Promise_all4 (isPushNotificationsEnabled (page env))
                                    (getNotificationPermission (page env))
                                    (getUserId env) (isOptedOut env)));
      let isPushEnabled := r.1.1.1 in
      let notificationPermission := r.1.1.2 in
      let optedOut := r.2 in
      page_act (LimitStorePut "subscription.optedOut" optedOut);;
      lift (Database_put "Options" (OptionRecord "isPushEnabled" isPushEnabled));;
      lift (Database_put "Options"
              (OptionRecord "notificationPermission" notificationPermission))
  | PermissionsQueryThen =>
      (* .then(function (permissionStatus) { permissionStatus.onchange = ... }):
         setting a property of undefined or null is a TypeError, and so is,
         in the strict code of a module, creating one on a primitive *)
      permissionStatus ← lift (await (permissions_query env));
      match permissionStatus with
      | VObj _ =>
          page_act SetPermissionStatusOnChange;;
          page_register PermissionStatusOnChange
      | _ => lift (throw (OtherError "TypeError"))
      end
  | PermissionStatusOnChange =>
      (* the handler stays on the permission status *)
      lift (act (TriggerNotificationPermissionChanged None));;
      page_register PermissionStatusOnChange
  | GetRegistrationThen =>
      match getRegistration env with
      | RegistrationFound active =>
          if active then page_act EstablishServiceWorkerChannel else mret tt
      | NoRegistration => mret tt
      | RegistrationRejected code =>
          if decide (code = Some 9%N) then
            if String.eqb (location_protocol env) "http:"
               || windowEnv_is_OneSignalProxyFrame env
            then lift (act (Log Debug "Expected error getting service worker registration on ${location.href}:"))
            else mret tt
          else lift (act (Log Error "Error getting Service Worker registration on ${location.href}:"))
      | RegistrationPending => lift (await Pending)
      end
  | SafariPushEnabledCallback =>
      match isPushNotificationsEnabled (page env) with
      | Fulfilled enabled =>
          if truthy enabled
          then lift (sessionInit (page env) {[ "__sdkCall" := VBool true ]})
          else mret tt
      | _ => mret tt
      end
  | HttpPushEnabledCallback =>
      match isPushNotificationsEnabled (page env) with
      | Fulfilled isPushEnabled =>
          if truthy isPushEnabled then
            lift (act GetAppId);;
            page_register HttpGetAppIdThen
          else mret tt
      | _ => mret tt
      end
  | HttpGetAppIdThen =>
      appId ← lift (await (getAppId (page env)));
      page_act (RegisterWithOneSignalNull appId)
  end.

(** The actions of the flow selector's vocabulary in a page trace, and the
    ambient widgets started. *)
Definition core_actions (tr : list PageAction) : list Action :=
  omap (fun a => match a with Core a => Some a | _ => None end) tr.

Definition is_ancillary (a : PageAction) : bool :=
  match a with
  | ShowNotifyButton | CheckAndDoHttpPermissionRequest | CookieSyncerInstall => true
  | _ => false
  end.

(** A page as the browser shows it on top of [env]: a recent browser that
    is not Firefox, over HTTPS, with an active service worker. *)
Definition sample_page (env : Env) : PageEnv := {|
  page := env;
  getUserId := Fulfilled (VStr "f2d1e1fa-e5b0-4b1e-8a0c-a1b2c3d4e5f6");
  isOptedOut := Fulfilled (VBool false);
  navigator_permissions := true;
  permissions_query := Fulfilled (VObj {[ "state" := VStr "prompt" ]});
  browser_firefox := false;
  Number_browser_version := S754_nan;
  navigator_serviceWorker := true;
  location_protocol := "https:";
  hasInsecureParentOrigin := Fulfilled (VBool false);
  getRegistration := RegistrationFound true;
  windowEnv_is_OneSignalProxyFrame := false;
  isContinuingBrowserSession := false
|}.

(** Whether the service worker registration was asked for, and whether the
    Safari replay and the HTTP session update were left waiting for the push
    state. *)
Definition asks_registration (tr : list PageAction) : bool :=
  existsb (fun a => match a with ServiceWorkerGetRegistration => true | _ => false end) tr.

Definition replays_on_safari (ts : list PageTask) : bool :=
  existsb (fun t => match t with SafariPushEnabledCallback => true | _ => false end) ts.

Definition updates_http_session (ts : list PageTask) : bool :=
  existsb (fun t => match t with HttpPushEnabledCallback => true | _ => false end) ts.

(** * Properties *)

(** ** Equations of the effect monad *)

Section EffEquations.
Context {A B : Type}.
Implicit Types (k : A -> Eff B) (w : World).

Lemma step_eta (r : Step A) :
  mkStep (completion r) (world r) (trace r) (registered r) = r.
Proof. by destruct r. Qed.

Lemma bind_ret (a : A) k w : (mret a ≫= k) w = k a w.
Proof. unfold mbind, eff_bind, mret, eff_ret. simpl. by destruct (k a w). Qed.

Lemma bind_read (f : World -> A) k w : (read f ≫= k) w = k (f w) w.
Proof. unfold mbind, eff_bind, read. simpl. by destruct (k (f w) w). Qed.

Lemma bind_throw (e : JsError) k w :
  (throw e ≫= k) w = mkStep (Threw e) w [] [].
Proof. reflexivity. Qed.

Lemma bind_await (p : Outcome A) k w :
  (await p ≫= k) w =
  match p with
  | Fulfilled a => k a w
  | Rejected e => mkStep (Threw e) w [] []
  | Pending => mkStep Suspended w [] []
  end.
Proof.
  unfold mbind, eff_bind, await. destruct p; simpl; try done.
  by destruct (k a w).
Qed.

Lemma bind_assoc {C : Type} (m : Eff C) (h : C -> Eff A) k w :
  ((m ≫= h) ≫= k) w = (m ≫= (fun c => h c ≫= k)) w.
Proof.
  unfold mbind, eff_bind. destruct (m w) as [[c | e |] w1 t1 g1]; simpl; try done.
  destruct (h c w1) as [[a | e |] w2 t2 g2]; simpl; try done.
  by rewrite !app_assoc.
Qed.
End EffEquations.

Section EffUnitEquations.
Context {B : Type}.
Implicit Types (k : unit -> Eff B) (w : World).

Lemma bind_act (a : Action) k w : (act a ≫= k) w = after_action a (k tt w).
Proof. reflexivity. Qed.

Lemma bind_modify (f : World -> World) k w : (modify f ≫= k) w = k tt (f w).
Proof. unfold mbind, eff_bind, modify. simpl. by destruct (k tt (f w)). Qed.

Lemma bind_register (t : Task) k w :
  (register t ≫= k) w = after_register t (k tt w).
Proof. reflexivity. Qed.
End EffUnitEquations.

Lemma if_act (c : bool) (a b : Action) :
  (if c then act a else act b) = act (if c then a else b).
Proof. by destruct c. Qed.

(** Normalise a run: sequence the binds to the right, then execute the
    primitive at the head. *)
Ltac eff_norm :=
  repeat first
    [ rewrite bind_assoc | rewrite bind_ret | rewrite bind_read
    | rewrite bind_act | rewrite bind_modify | rewrite bind_register
    | rewrite bind_throw | rewrite bind_await ];
  cbv beta;
  cbn [config _sessionInitAlreadyRunning subscriptionModalHost sessionStorage].

(** Split on the condition of the conditional at the head of a run. *)
Ltac eff_case :=
  match goal with
  | |- context [ mbind _ (if ?c then _ else _) ] => destruct c eqn:?
  | |- context [ (if ?c then _ else _) _ ] => destruct c eqn:?
  | |- context [ match ?x with Fulfilled _ => _ | Rejected _ => _ | Pending => _ end ] =>
      destruct x eqn:?
  | |- context [ match ?x with Some _ => _ | None => _ end ] => destruct x eqn:?
  end.

Ltac eff_done :=
  unfold act, mret, eff_ret, register, throw, await, after_action, after_register;
  cbn [completion world trace registered].

(** ** The configuration merge *)

Lemma get_lookup_Some (o : gmap string JsValue) (k : string) (v : JsValue) :
  o !! k = Some v -> get o k = v.
Proof. intros H. unfold get. by rewrite H. Qed.

Lemma get_lookup_None (o : gmap string JsValue) (k : string) :
  o !! k = None -> get o k = VUndefined.
Proof. intros H. unfold get. by rewrite H. Qed.

(** A property of the last source of [objectAssign], other than
    [__proto__], is a property of the result, with the same value. *)
Lemma objectAssign_last (target : gmap string JsValue)
    (sources : list (gmap string JsValue)) (last : gmap string JsValue)
    (k : string) (v : JsValue) :
  k <> "__proto__" ->
  last !! k = Some v ->
  objectAssign target (sources ++ [last]) !! k = Some v.
Proof.
  intros Hk H. unfold objectAssign. rewrite foldl_app. simpl. unfold assign at 1.
  apply lookup_union_Some_l. by rewrite lookup_delete_ne.
Qed.

Lemma getMergedLegacyConfig_falsy (userConfig : gmap string JsValue)
    (serverConfig : AppConfig) :
  truthy (get userConfig "subdomainName") = false ->
  getMergedLegacyConfig userConfig serverConfig !! "subdomainName" = None.
Proof.
  intros H. unfold getMergedLegacyConfig. rewrite H. simpl.
  apply lookup_delete_eq.
Qed.

Lemma getMergedLegacyConfig_truthy (userConfig : gmap string JsValue)
    (serverConfig : AppConfig) (v : JsValue) :
  userConfig !! "subdomainName" = Some v -> truthy v = true ->
  getMergedLegacyConfig userConfig serverConfig !! "subdomainName" = Some v.
Proof.
  intros Hk Hv. unfold getMergedLegacyConfig.
  rewrite (get_lookup_Some _ _ _ Hk), Hv. simpl.
  by apply (objectAssign_last _ [_; _; _]).
Qed.

(** C4: with [serverConfig.subdomain = "foo"] and a [userConfig] that has no
    [subdomainName] key, the merged configuration has no [subdomainName] key;
    with [userConfig.subdomainName = "bar"] the merged [subdomainName] is
    ["bar"], whatever the server's value. *)
Theorem getMergedLegacyConfig_subdomainName (userConfig : gmap string JsValue)
    (serverConfig : AppConfig) :
  (subdomain serverConfig = VStr "foo" ->
   userConfig !! "subdomainName" = None ->
   getMergedLegacyConfig userConfig serverConfig !! "subdomainName" = None)
  /\ (userConfig !! "subdomainName" = Some (VStr "bar") ->
      getMergedLegacyConfig userConfig serverConfig !! "subdomainName"
      = Some (VStr "bar")).
Proof.
  split.
  - intros _ Hk. apply getMergedLegacyConfig_falsy.
    by rewrite (get_lookup_None _ _ Hk).
  - intros Hk. by apply getMergedLegacyConfig_truthy.
Qed.

Lemma getMergedLegacyConfig_subdomainName_witness :
  getMergedLegacyConfig {[ "autoRegister" := VBool true ]}
      (mkAppConfig (VStr "foo") VUndefined (VBool false)) !! "subdomainName" = None
  /\ getMergedLegacyConfig {[ "subdomainName" := VStr "bar" ]}
      (mkAppConfig (VStr "foo") VUndefined (VBool false)) !! "subdomainName"
     = Some (VStr "bar").
Proof.
  split.
  - apply (proj1 (getMergedLegacyConfig_subdomainName
                    {[ "autoRegister" := VBool true ]}
                    (mkAppConfig (VStr "foo") VUndefined (VBool false))));
      reflexivity.
  - apply (proj2 (getMergedLegacyConfig_subdomainName
                    {[ "subdomainName" := VStr "bar" ]}
                    (mkAppConfig (VStr "foo") VUndefined (VBool false))));
      reflexivity.
Defined.

(** C10: whenever the caller's [userConfig.subdomainName] is present but
    falsy (the empty string, [false], [null], ...), and not only when the key
    is missing, the merged configuration has no [subdomainName] key: the
    value the caller supplied is dropped. *)
Theorem getMergedLegacyConfig_drops_falsy_subdomainName
    (userConfig : gmap string JsValue) (serverConfig : AppConfig) (v : JsValue) :
  userConfig !! "subdomainName" = Some v ->
  truthy v = false ->
  getMergedLegacyConfig userConfig serverConfig !! "subdomainName" = None.
Proof.
  intros Hk Hv. apply getMergedLegacyConfig_falsy.
  by rewrite (get_lookup_Some _ _ _ Hk).
Qed.

Lemma getMergedLegacyConfig_drops_falsy_subdomainName_witness :
  getMergedLegacyConfig {[ "subdomainName" := VStr "" ]}
      (mkAppConfig (VStr "foo") VUndefined VUndefined) !! "subdomainName" = None
  /\ getMergedLegacyConfig {[ "subdomainName" := VBool false ]}
      (mkAppConfig (VStr "foo") VUndefined VUndefined) !! "subdomainName" = None
  /\ getMergedLegacyConfig {[ "subdomainName" := VNull ]}
      (mkAppConfig (VStr "foo") VUndefined VUndefined) !! "subdomainName" = None.
Proof.
  split; [| split].
  - apply (getMergedLegacyConfig_drops_falsy_subdomainName
             {[ "subdomainName" := VStr "" ]} _ (VStr "")); reflexivity.
  - apply (getMergedLegacyConfig_drops_falsy_subdomainName
             {[ "subdomainName" := VBool false ]} _ (VBool false)); reflexivity.
  - apply (getMergedLegacyConfig_drops_falsy_subdomainName
             {[ "subdomainName" := VNull ]} _ VNull); reflexivity.
Defined.
(** ** Option persistence *)

Lemma if_put (c : bool) (table k : string) (a b : JsValue) :
  (if c then DatabasePut table (OptionRecord k a)
   else DatabasePut table (OptionRecord k b))
  = DatabasePut table (OptionRecord k (if c then a else b)).
Proof. by destruct c. Qed.

(** [saveInitOptions] issues eight puts, always in the same order. *)
Lemma saveInitOptions_run (w : World) :
  let cfg := config w in
  let hooks := get cfg "webhooks" in
  let hook event :=
    if truthy hooks && truthy (getProp hooks event)
    then getProp hooks event else VBool false in
  saveInitOptions w =
  mkStep (Returned tt) w
    [ DatabasePut "Options"
        (OptionRecord "persistNotification"
           (if is_false (get cfg "persistNotification") then VBool false
            else if is_true (get cfg "persistNotification") then VStr "force"
            else VBool true));
      DatabasePut "Options"
        (OptionRecord "webhooks.notification.displayed" (hook "notification.displayed"));
      DatabasePut "Options"
        (OptionRecord "webhooks.notification.clicked" (hook "notification.clicked"));
      DatabasePut "Options"
        (OptionRecord "webhooks.notification.dismissed" (hook "notification.dismissed"));
      DatabasePut "Options"
        (OptionRecord "webhooks.cors"
           (if truthy hooks && truthy (getProp hooks "cors")
            then VBool true else VBool false));
      DatabasePut "Options"
        (OptionRecord "notificationClickHandlerMatch"
           (if truthy (get cfg "notificationClickHandlerMatch")
            then get cfg "notificationClickHandlerMatch" else VStr "exact"));
      DatabasePut "Options"
        (OptionRecord "notificationClickHandlerAction"
           (if truthy (get cfg "notificationClickHandlerAction")
            then get cfg "notificationClickHandlerAction" else VStr "navigate"));
      DatabasePut "Options"
        (OptionRecord "serviceWorkerRefetchRequests"
           (if is_false (get cfg "serviceWorkerRefetchRequests")
            then VBool false else VBool true)) ]
    [].
Proof.
  unfold saveInitOptions, webhookEvents, Database_put. cbn [forEach].
  rewrite bind_read, !if_act. eff_norm. eff_done.
  rewrite !if_put. simpl.
  by destruct (is_false (get (config w) "persistNotification")).
Qed.

Lemma Options_after_saveInitOptions (w : World) (db : gmap string JsValue)
    (k : string) :
  let cfg := config w in
  let hooks := get cfg "webhooks" in
  let hook event :=
    if truthy hooks && truthy (getProp hooks event)
    then getProp hooks event else VBool false in
  Options_after (trace (saveInitOptions w)) db !! k =
  if decide (k = "serviceWorkerRefetchRequests") then
    Some (if is_false (get cfg "serviceWorkerRefetchRequests")
          then VBool false else VBool true)
  else if decide (k = "notificationClickHandlerAction") then
    Some (if truthy (get cfg "notificationClickHandlerAction")
          then get cfg "notificationClickHandlerAction" else VStr "navigate")
  else if decide (k = "notificationClickHandlerMatch") then
    Some (if truthy (get cfg "notificationClickHandlerMatch")
          then get cfg "notificationClickHandlerMatch" else VStr "exact")
  else if decide (k = "webhooks.cors") then
    Some (if truthy hooks && truthy (getProp hooks "cors")
          then VBool true else VBool false)
  else if decide (k = "webhooks.notification.dismissed") then
    Some (hook "notification.dismissed")
  else if decide (k = "webhooks.notification.clicked") then
    Some (hook "notification.clicked")
  else if decide (k = "webhooks.notification.displayed") then
    Some (hook "notification.displayed")
  else if decide (k = "persistNotification") then
    Some (if is_false (get cfg "persistNotification") then VBool false
          else if is_true (get cfg "persistNotification") then VStr "force"
          else VBool true)
  else db !! k.
Proof.
  intros cfg hooks hook. rewrite saveInitOptions_run.
  unfold Options_after. cbn [trace foldl Options_put].
  change (String.eqb "Options" "Options") with true. cbv iota.
  rewrite !lookup_insert. fold cfg. fold hooks.
  repeat (case_decide; [subst; try done |]).
  repeat (case_decide; [congruence |]). done.
Qed.

(** C5: [saveInitOptions] persists the key [persistNotification] with the
    value [true] when the configuration leaves it unset, [false] when it is
    explicitly [false], and the sentinel ["force"] when it is explicitly
    [true]. *)
Theorem saveInitOptions_persistNotification (w : World) (db : gmap string JsValue) :
  let persisted :=
    Options_after (trace (saveInitOptions w)) db !! "persistNotification" in
  (get (config w) "persistNotification" = VUndefined ->
   persisted = Some (VBool true))
  /\ (get (config w) "persistNotification" = VBool false ->
      persisted = Some (VBool false))
  /\ (get (config w) "persistNotification" = VBool true ->
      persisted = Some (VStr "force")).
Proof.
  intros persisted. subst persisted.
  rewrite Options_after_saveInitOptions.
  repeat (case_decide; [done |]). case_decide; [| done].
  split; [| split]; intros ->; reflexivity.
Qed.

Lemma saveInitOptions_persistNotification_witness :
  Options_after (trace (saveInitOptions (mkWorld ∅ false None ∅))) ∅
    !! "persistNotification" = Some (VBool true)
  /\ Options_after
       (trace (saveInitOptions
                 (mkWorld {[ "persistNotification" := VBool false ]} false None ∅))) ∅
       !! "persistNotification" = Some (VBool false)
  /\ Options_after
       (trace (saveInitOptions
                 (mkWorld {[ "persistNotification" := VBool true ]} false None ∅))) ∅
       !! "persistNotification" = Some (VStr "force").
Proof.
  split; [| split].
  - apply (proj1 (saveInitOptions_persistNotification (mkWorld ∅ false None ∅) ∅)).
    reflexivity.
  - apply (proj1 (proj2 (saveInitOptions_persistNotification
       (mkWorld {[ "persistNotification" := VBool false ]} false None ∅) ∅))).
    reflexivity.
  - apply (proj2 (proj2 (saveInitOptions_persistNotification
       (mkWorld {[ "persistNotification" := VBool true ]} false None ∅) ∅))).
    reflexivity.
Defined.

(** What [saveInitOptions] persists for a webhook event, whatever the
    configuration holds. *)
Lemma saveInitOptions_webhook (w : World) (db : gmap string JsValue) (event : string) :
  event ∈ webhookEvents ->
  let hooks := get (config w) "webhooks" in
  Options_after (trace (saveInitOptions w)) db !! ("webhooks." +:+ event) =
  Some (if truthy hooks && truthy (getProp hooks event)
        then getProp hooks event else VBool false).
Proof.
  intros Hev hooks. rewrite Options_after_saveInitOptions.
  unfold webhookEvents in Hev.
  repeat (apply elem_of_cons in Hev as [-> | Hev]); [| | | by apply elem_of_nil in Hev];
    reflexivity.
Qed.

(** C6: for each webhook event of [notification.displayed],
    [notification.clicked] and [notification.dismissed]: when the event is
    absent from the configuration (no [webhooks] at all, or a [webhooks]
    object without the event), [saveInitOptions] persists [false] under the
    event's [webhooks.] key; when a URL (a non-empty string) is configured
    for it, the persisted value is that URL. *)
Theorem saveInitOptions_webhooks (w : World) (db : gmap string JsValue)
    (event : string) :
  event ∈ webhookEvents ->
  let persisted :=
    Options_after (trace (saveInitOptions w)) db !! ("webhooks." +:+ event) in
  (get (config w) "webhooks" = VUndefined -> persisted = Some (VBool false))
  /\ (forall hooks : gmap string JsValue,
        get (config w) "webhooks" = VObj hooks -> hooks !! event = None ->
        persisted = Some (VBool false))
  /\ (forall (hooks : gmap string JsValue) (url : string),
        get (config w) "webhooks" = VObj hooks ->
        hooks !! event = Some (VStr url) -> url <> "" ->
        persisted = Some (VStr url)).
Proof.
  intros Hev persisted. subst persisted.
  rewrite (saveInitOptions_webhook _ _ _ Hev).
  split; [| split].
  - intros ->. reflexivity.
  - intros hooks -> Hk. simpl. by rewrite (get_lookup_None _ _ Hk).
  - intros hooks url -> Hk Hurl. simpl. rewrite (get_lookup_Some _ _ _ Hk). simpl.
    destruct (String.eqb_spec url ""); [done | reflexivity].
Qed.

Lemma saveInitOptions_webhooks_witness :
  let hooks : gmap string JsValue :=
    {[ "notification.clicked" := VStr "https://example.com/clicked" ]} in
  let w := mkWorld {[ "webhooks" := VObj hooks ]} false None ∅ in
  Options_after (trace (saveInitOptions (mkWorld ∅ false None ∅))) ∅
    !! ("webhooks." +:+ "notification.displayed") = Some (VBool false)
  /\ Options_after (trace (saveInitOptions w)) ∅
       !! ("webhooks." +:+ "notification.dismissed") = Some (VBool false)
  /\ Options_after (trace (saveInitOptions w)) ∅
       !! ("webhooks." +:+ "notification.clicked")
     = Some (VStr "https://example.com/clicked").
Proof.
  intros hooks w. split; [| split].
  - apply (proj1 (saveInitOptions_webhooks (mkWorld ∅ false None ∅) ∅
                    "notification.displayed" ltac:(unfold webhookEvents; set_solver))).
    reflexivity.
  - apply (proj1 (proj2 (saveInitOptions_webhooks w ∅ "notification.dismissed"
                           ltac:(unfold webhookEvents; set_solver))) hooks);
      reflexivity.
  - apply (proj2 (proj2 (saveInitOptions_webhooks w ∅ "notification.clicked"
                           ltac:(unfold webhookEvents; set_solver))) hooks);
      [reflexivity | reflexivity | discriminate].
Defined.

(** A value that is present but falsy (the empty string, say) is persisted
    as [false], like an absent one. *)
Lemma saveInitOptions_webhook_falsy (w : World) (db : gmap string JsValue)
    (event : string) (hooks : gmap string JsValue) (v : JsValue) :
  event ∈ webhookEvents ->
  get (config w) "webhooks" = VObj hooks -> hooks !! event = Some v ->
  truthy v = false ->
  Options_after (trace (saveInitOptions w)) db !! ("webhooks." +:+ event)
  = Some (VBool false).
Proof.
  intros Hev Hw Hk Hv. rewrite (saveInitOptions_webhook _ _ _ Hev), Hw. simpl.
  by rewrite (get_lookup_Some _ _ _ Hk), Hv.
Qed.

(** ** The subscription flow selector *)

(** No callback that [sessionInit] registers triggers the terminal event. *)
Lemma run_task_initialized_count (env : Env) (t : Task) (w : World) :
  t <> VisibilityChangeListener ->
  initialized_count (trace (run_task env t w)) = 0.
Proof.
  intros Ht. destruct t; [| | | | done]; unfold run_task, set_subscriptionModalHost.
  all: eff_norm; repeat (eff_case; eff_norm); eff_done; reflexivity.
Qed.

(** [sessionInit] always returns: it has no [await] and lets no error out. *)
Lemma sessionInit_returns (env : Env) (options : gmap string JsValue) (w : World) :
  completion (sessionInit env options w) = Returned tt.
Proof.
  unfold sessionInit, set_sessionInitAlreadyRunning.
  eff_norm; repeat (eff_case; eff_norm); eff_done; reflexivity.
Qed.

(** The callbacks [sessionInit] registers are its own. *)
Lemma sessionInit_registered (env : Env) (options : gmap string JsValue)
    (w : World) (t : Task) :
  t ∈ registered (sessionInit env options w) -> t <> VisibilityChangeListener.
Proof.
  unfold sessionInit, set_sessionInitAlreadyRunning.
  eff_norm; repeat (eff_case; eff_norm); eff_done;
    intros Ht; repeat (apply elem_of_cons in Ht as [-> | Ht]); try done;
    by apply elem_of_nil in Ht.
Qed.

(** C1, as the code has it: a call of [sessionInit] that passes the latch
    triggers the terminal [SDK_INITIALIZED] event exactly once, as its last
    action, on every branch, the modal prompt branch included; the callbacks
    it leaves behind never trigger it again. *)
Theorem sessionInit_initialized_once (env : Env) (options : gmap string JsValue)
    (w : World) :
  _sessionInitAlreadyRunning w = false ->
  let r := sessionInit env options w in
  completion r = Returned tt
  /\ initialized_count (trace r) = 1
  /\ last (trace r) = Some (EventTrigger SDK_INITIALIZED)
  /\ (forall (env' : Env) (w' : World) (t : Task),
        t ∈ registered r -> initialized_count (trace (run_task env' t w')) = 0).
Proof.
  intros Hlatch r. split; [apply sessionInit_returns |].
  split; [| split].
  - subst r. unfold sessionInit, set_sessionInitAlreadyRunning.
    eff_norm. rewrite Hlatch. eff_norm.
    repeat (eff_case; eff_norm); eff_done; reflexivity.
  - subst r. unfold sessionInit, set_sessionInitAlreadyRunning.
    eff_norm. rewrite Hlatch. eff_norm.
    repeat (eff_case; eff_norm); eff_done; reflexivity.
  - intros env' w' t Ht. apply run_task_initialized_count.
    by apply (sessionInit_registered env options w).
Qed.

Lemma sessionInit_initialized_once_witness :
  let options : gmap string JsValue := {[ "__sdkCall" := VBool true ]} in
  let r := sessionInit https_page options (new_tab ∅) in
  completion r = Returned tt
  /\ initialized_count (trace r) = 1
  /\ last (trace r) = Some (EventTrigger SDK_INITIALIZED)
  /\ (forall (env' : Env) (w' : World) (t : Task),
        t ∈ registered r -> initialized_count (trace (run_task env' t w')) = 0).
Proof.
  apply (sessionInit_initialized_once https_page {[ "__sdkCall" := VBool true ]}
           (new_tab ∅)).
  reflexivity.
Defined.

(** C1, as stated, fails on the modal prompt branch: a registration request
    for the modal prompt, on a browser that is not Safari, passes the latch,
    starts the three reads whose callback will load the modal host, and
    triggers [SDK_INITIALIZED] like every other branch. *)
Lemma sessionInit_modal_prompt_emits_initialized :
  let options : gmap string JsValue :=
    {[ "modalPrompt" := VBool true; "fromRegisterFor" := VBool true ]} in
  let r := sessionInit https_page options (new_tab ∅) in
  browser_safari https_page = false
  /\ truthy (get options "modalPrompt") && truthy (get options "fromRegisterFor") = true
  /\ registered r = [ModalHostLoad options]
  /\ trace r =
     [ Log Debug "Called %csessionInit(${JSON.stringify(options)})";
       SetSessionInitAlreadyRunning true;
       GetAppId; IsPushNotificationsEnabled; GetNotificationPermission;
       EventTrigger SDK_INITIALIZED ]
  /\ initialized_count (trace r) <> 0.
Proof. repeat split; try reflexivity. vm_compute. discriminate. Qed.

(** The callbacks of [sessionInit] leave the latch as they find it. *)
Lemma run_task_latch (env : Env) (t : Task) (w : World) :
  t <> VisibilityChangeListener ->
  _sessionInitAlreadyRunning (world (run_task env t w))
  = _sessionInitAlreadyRunning w.
Proof.
  intros Ht. destruct t; [| | | | done]; unfold run_task, set_subscriptionModalHost.
  all: eff_norm; repeat (eff_case; eff_norm); eff_done; reflexivity.
Qed.

(** C2: a call of [sessionInit] made while the latch is set returns at once
    and does nothing but log: the shared state is unchanged, no event is
    triggered, no prompt, registration or storage call is made and no callback
    is left behind.  A call that finds the latch clear sets it as its first
    effect, and every callback it registers finds it set; as long as that
    call leaves the latch set, a later call is silent, whether it comes
    before or after the first call's callback has run. *)
Theorem sessionInit_latch_short_circuit (env : Env)
    (options : gmap string JsValue) (w : World) :
  (_sessionInitAlreadyRunning w = true ->
   sessionInit env options w =
   mkStep (Returned tt) w
     [ Log Debug "Called %csessionInit(${JSON.stringify(options)})";
       Log Debug "Returning from sessionInit because it has already been called." ]
     []
   /\ side_effects (trace (sessionInit env options w)) = [])
  /\ (_sessionInitAlreadyRunning w = false ->
      (exists rest : list Action,
         side_effects (trace (sessionInit env options w))
         = SetSessionInitAlreadyRunning true :: rest)
      /\ (registered (sessionInit env options w) <> [] ->
          _sessionInitAlreadyRunning (world (sessionInit env options w)) = true)
      /\ (_sessionInitAlreadyRunning (world (sessionInit env options w)) = true ->
          forall (env2 : Env) (options2 : gmap string JsValue),
            side_effects
              (trace (sessionInit env2 options2 (world (sessionInit env options w))))
            = []
            /\ forall (env1 : Env) (t : Task),
                 t ∈ registered (sessionInit env options w) ->
                 side_effects
                   (trace (sessionInit env2 options2
                             (world (run_task env1 t
                                       (world (sessionInit env options w))))))
                 = [])).
Proof.
  assert (forall (e : Env) (o : gmap string JsValue) (w0 : World),
            _sessionInitAlreadyRunning w0 = true ->
            sessionInit e o w0 =
            mkStep (Returned tt) w0
              [ Log Debug "Called %csessionInit(${JSON.stringify(options)})";
                Log Debug "Returning from sessionInit because it has already been called." ]
              []) as Hsilent.
  { intros e o w0 Hw0. unfold sessionInit. eff_norm. rewrite Hw0. eff_done.
    reflexivity. }
  split; intros Hlatch.
  - by rewrite (Hsilent _ _ _ Hlatch).
  - split; [| split].
    + clear Hsilent. unfold sessionInit, set_sessionInitAlreadyRunning.
      eff_norm. rewrite Hlatch. eff_norm.
      repeat (eff_case; eff_norm); eff_done; eexists; reflexivity.
    + clear Hsilent. unfold sessionInit, set_sessionInitAlreadyRunning.
      eff_norm. rewrite Hlatch. eff_norm.
      repeat (eff_case; eff_norm); eff_done; done.
    + intros Hafter env2 options2. split.
      * by rewrite (Hsilent _ _ _ Hafter).
      * intros env1 t Ht. rewrite Hsilent; [done |].
        rewrite run_task_latch; [done |].
        by apply (sessionInit_registered env options w).
Qed.

Lemma sessionInit_latch_short_circuit_witness :
  let options : gmap string JsValue := {[ "__sdkCall" := VBool true ]} in
  let running := mkWorld ∅ true None ∅ in
  let first := sessionInit https_page options (new_tab ∅) in
  (sessionInit https_page options running =
   mkStep (Returned tt) running
     [ Log Debug "Called %csessionInit(${JSON.stringify(options)})";
       Log Debug "Returning from sessionInit because it has already been called." ]
     []
   /\ side_effects (trace (sessionInit https_page options running)) = [])
  /\ (exists rest : list Action,
        side_effects (trace first) = SetSessionInitAlreadyRunning true :: rest)
  /\ _sessionInitAlreadyRunning (world first) = true
  /\ side_effects (trace (sessionInit https_page options (world first))) = []
  /\ side_effects
       (trace (sessionInit https_page options
                 (world (run_task https_page (NativePromptCallback options)
                           (world first))))) = [].
Proof.
  intros options running first.
  destruct (proj2 (sessionInit_latch_short_circuit https_page options (new_tab ∅))
              ltac:(reflexivity)) as (Hfirst & Hreg & Hlater).
  split; [| split; [| split; [| split]]].
  - apply (proj1 (sessionInit_latch_short_circuit https_page options running)).
    reflexivity.
  - exact Hfirst.
  - apply Hreg. discriminate.
  - exact (proj1 (Hlater (Hreg ltac:(discriminate)) https_page options)).
  - apply (proj2 (Hlater (Hreg ltac:(discriminate)) https_page options) https_page).
    apply list_elem_of_here.
Defined.

(** C9, as the code has it: on Safari, with no [safari_web_id] configured,
    a call of [sessionInit] made while the latch is not set runs no subscription flow at all (no
    prompt, no registration, no popover, no callback left behind); it sets
    the latch, which stays set, and triggers [SDK_INITIALIZED]. *)
Theorem sessionInit_safari_without_web_id (env : Env)
    (options : gmap string JsValue) (w : World) :
  _sessionInitAlreadyRunning w = false ->
  browser_safari env = true ->
  truthy (get (config w) "safari_web_id") = false ->
  sessionInit env options w =
  mkStep (Returned tt)
    (mkWorld (config w) true (subscriptionModalHost w) (sessionStorage w))
    [ Log Debug "Called %csessionInit(${JSON.stringify(options)})";
      SetSessionInitAlreadyRunning true;
      EventTrigger SDK_INITIALIZED ]
    [].
Proof.
  intros Hlatch Hsafari Hid. unfold sessionInit, set_sessionInitAlreadyRunning.
  eff_norm. rewrite Hlatch. eff_norm. rewrite Hsafari, Hid. eff_norm.
  eff_done. reflexivity.
Qed.

Lemma sessionInit_safari_without_web_id_witness :
  sessionInit safari_page {[ "__sdkCall" := VBool true ]} (new_tab ∅) =
  mkStep (Returned tt) (mkWorld ∅ true None ∅)
    [ Log Debug "Called %csessionInit(${JSON.stringify(options)})";
      SetSessionInitAlreadyRunning true;
      EventTrigger SDK_INITIALIZED ]
    [].
Proof.
  apply (sessionInit_safari_without_web_id safari_page
           {[ "__sdkCall" := VBool true ]} (new_tab ∅)); reflexivity.
Defined.

(** C9, as stated, fails for a call made while the latch is set: on Safari,
    with no [safari_web_id] configured, such a call returns after two log
    lines and triggers no event at all. *)
Lemma sessionInit_safari_without_web_id_latched :
  let options : gmap string JsValue := {[ "__sdkCall" := VBool true ]} in
  let running := mkWorld ∅ true None ∅ in
  browser_safari safari_page = true
  /\ config running !! "safari_web_id" = None
  /\ sessionInit safari_page options running =
     mkStep (Returned tt) running
       [ Log Debug "Called %csessionInit(${JSON.stringify(options)})";
         Log Debug "Returning from sessionInit because it has already been called." ]
       []
  /\ events (trace (sessionInit safari_page options running)) = []
  /\ initialized_count (trace (sessionInit safari_page options running)) = 0.
Proof. repeat split; reflexivity. Qed.

(** ** The HTTP popover *)

Lemma is_true_spec (v : JsValue) : is_true v = true <-> v = VBool true.
Proof. split; [| by intros ->]. by destruct v as [| | [] | | |]. Qed.

Lemma httpPrompt_recoverable_spec (e : JsError) :
  httpPrompt_recoverable e = true <->
  e = InvalidStateError RedundantPermissionMessage
  \/ e = PermissionMessageDismissedError
  \/ e = AlreadySubscribedError.
Proof.
  destruct e as [reason | | |]; simpl.
  - destruct (String.eqb_spec reason RedundantPermissionMessage) as [-> | Hne].
    + split; auto.
    + split; [done |]. intros [H | [H | H]]; congruence.
  - split; auto.
  - split; auto.
  - split; [done |]. intros [H | [H | H]]; congruence.
Qed.

(** C8, as the code has it: in the HTTP popover branch the popover is shown
    exactly when [autoRegister] is [true] itself and the popover was not
    shown yet this session; [sessionInit] then returns normally and triggers
    [SDK_INITIALIZED] whatever becomes of the popover.  When the popover's
    promise is rejected with a redundant-prompt [InvalidStateError], a
    [PermissionMessageDismissedError] or an [AlreadySubscribedError], the
    handler logs and swallows it; any other error is thrown again by the
    handler, which leaves the promise of the chain (one that [sessionInit]
    hands to nobody) rejected with it. *)
Theorem sessionInit_http_popover (env : Env) (options : gmap string JsValue)
    (w : World) :
  _sessionInitAlreadyRunning w = false ->
  browser_safari env = false ->
  truthy (get options "modalPrompt") && truthy (get options "fromRegisterFor") = false ->
  serviceWorker_in_navigator env && negb (isUsingSubscriptionWorkaround env) = false ->
  let r := sessionInit env options w in
  (shows_http_prompt (trace r) = true <->
   get (config w) "autoRegister" = VBool true /\ isHttpPromptAlreadyShown env = false)
  /\ registered r = (if shows_http_prompt (trace r) then [HttpPromptCatch] else [])
  /\ completion r = Returned tt
  /\ last (trace r) = Some (EventTrigger SDK_INITIALIZED)
  /\ (forall (env' : Env) (w' : World) (e : JsError),
        showHttpPrompt env' = Rejected e ->
        (e = InvalidStateError RedundantPermissionMessage
         \/ e = PermissionMessageDismissedError
         \/ e = AlreadySubscribedError ->
         run_task env' HttpPromptCatch w' =
         mkStep (Returned tt) w' [Log Debug "[Prompt Not Showing]"] [])
        /\ (e <> InvalidStateError RedundantPermissionMessage ->
            e <> PermissionMessageDismissedError ->
            e <> AlreadySubscribedError ->
            run_task env' HttpPromptCatch w' = mkStep (Threw e) w' [] [])).
Proof.
  intros Hlatch Hsafari Hmodal Hsw r.
  assert (r =
    let auto := is_true (get (config w) "autoRegister") in
    let shown := isHttpPromptAlreadyShown env in
    mkStep (Returned tt)
      (mkWorld (config w) true (subscriptionModalHost w) (sessionStorage w))
      ([ Log Debug "Called %csessionInit(${JSON.stringify(options)})";
         SetSessionInitAlreadyRunning true ]
       ++ (if negb auto then [Log Debug "OneSignal: Not automatically showing popover because autoRegister is not specifically true."] else [])
       ++ (if shown then [Log Debug "OneSignal: Not automatically showing popover because it was previously shown in the same session."] else [])
       ++ (if auto && negb shown then [ShowHttpPrompt] else [])
       ++ [EventTrigger SDK_INITIALIZED])
      (if auto && negb shown then [HttpPromptCatch] else [])) as Hr.
  { subst r. unfold sessionInit, set_sessionInitAlreadyRunning.
    eff_norm. rewrite Hlatch. eff_norm. rewrite Hsafari, Hmodal, Hsw. eff_norm.
    destruct (is_true (get (config w) "autoRegister")),
      (isHttpPromptAlreadyShown env); simpl; eff_norm; eff_done; reflexivity. }
  assert (shows_http_prompt (trace r)
          = is_true (get (config w) "autoRegister")
            && negb (isHttpPromptAlreadyShown env)) as Hshow.
  { rewrite Hr.
    destruct (is_true (get (config w) "autoRegister")),
      (isHttpPromptAlreadyShown env); reflexivity. }
  split; [| split; [| split; [| split]]].
  - rewrite Hshow, andb_true_iff, negb_true_iff, is_true_spec. done.
  - rewrite Hshow, Hr. reflexivity.
  - apply sessionInit_returns.
  - rewrite Hr.
    destruct (is_true (get (config w) "autoRegister")),
      (isHttpPromptAlreadyShown env); reflexivity.
  - intros env' w' e He. unfold run_task. rewrite He. split.
    + intros Hrec. apply httpPrompt_recoverable_spec in Hrec. by rewrite Hrec.
    + intros H1 H2 H3.
      destruct (httpPrompt_recoverable e) eqn:Hrec; [| reflexivity].
      apply httpPrompt_recoverable_spec in Hrec.
      destruct Hrec as [? | [? | ?]]; contradiction.
Qed.

Lemma sessionInit_http_popover_witness :
  let cfg : gmap string JsValue := {[ "autoRegister" := VBool true ]} in
  let r := sessionInit http_page ∅ (new_tab cfg) in
  shows_http_prompt (trace r) = true
  /\ registered r = [HttpPromptCatch]
  /\ completion r = Returned tt
  /\ last (trace r) = Some (EventTrigger SDK_INITIALIZED)
  /\ run_task http_page HttpPromptCatch (world r)
     = mkStep (Threw (OtherError "TypeError")) (world r) [] [].
Proof.
  intros cfg r.
  destruct (sessionInit_http_popover http_page ∅ (new_tab cfg)
              ltac:(reflexivity) ltac:(reflexivity) ltac:(reflexivity)
              ltac:(reflexivity))
    as (Hshow & Hreg & Hret & Hlast & Hcatch).
  split; [| split; [| split; [| split]]].
  - apply Hshow. split; reflexivity.
  - reflexivity.
  - exact Hret.
  - exact Hlast.
  - apply (Hcatch http_page (world r) (OtherError "TypeError")); [reflexivity | | |];
      discriminate.
Defined.

(** C8, as stated, fails on its last part: on an HTTP page with
    [autoRegister: true] whose popover is rejected with an error other than
    the three, the call of [sessionInit] itself returns to its caller
    normally, after triggering [SDK_INITIALIZED]; the error only rejects the
    promise of the [catch], which [sessionInit] has handed to nobody. *)
Lemma sessionInit_http_popover_failure_not_thrown_to_caller :
  let cfg : gmap string JsValue := {[ "autoRegister" := VBool true ]} in
  let r := sessionInit http_page ∅ (new_tab cfg) in
  showHttpPrompt http_page = Rejected (OtherError "TypeError")
  /\ httpPrompt_recoverable (OtherError "TypeError") = false
  /\ completion r = Returned tt
  /\ completion r <> Threw (OtherError "TypeError")
  /\ trace r =
     [ Log Debug "Called %csessionInit(${JSON.stringify(options)})";
       SetSessionInitAlreadyRunning true;
       ShowHttpPrompt;
       EventTrigger SDK_INITIALIZED ]
  /\ registered r = [HttpPromptCatch]
  /\ completion (run_task http_page HttpPromptCatch (world r))
     = Threw (OtherError "TypeError").
Proof. repeat split; try reflexivity. vm_compute. discriminate. Qed.

(** ** The session guard *)

(** C3, as the code has it: once its read of the application id has
    resolved, a call of [internalInit] that finds the session marker set, no
    subdomain configured, and a notification permission that is ["denied"] or
    equal to the permission last recorded in this session, triggers
    [SDK_INITIALIZED] and nothing else: it starts no subscription flow,
    leaves no callback behind, and writes nothing, so no new last-observed
    permission. *)
Theorem internalInit_session_short_circuit (env : Env) (w : World)
    (appId : JsValue) (marker : string) :
  db_get_appId env = Fulfilled appId ->
  sessionStorage w !! "ONE_SIGNAL_SESSION" = Some marker -> marker <> "" ->
  truthy (get (config w) "subdomainName") = false ->
  (notification_permission env = "denied"
   \/ sessionStorage w !! "ONE_SIGNAL_NOTIFICATION_PERMISSION"
      = Some (notification_permission env)) ->
  internalInit env w =
  mkStep (Returned tt) w
    [ Log Debug "Called %cinternalInit()";
      DatabaseGet "Ids" "appId";
      EventTrigger SDK_INITIALIZED ]
    []
  /\ events (trace (internalInit env w)) = [SDK_INITIALIZED].
Proof.
  intros Hdb Hmarker Hne Hsub Hperm.
  assert (internalInit env w =
          mkStep (Returned tt) w
            [ Log Debug "Called %cinternalInit()";
              DatabaseGet "Ids" "appId";
              EventTrigger SDK_INITIALIZED ] []) as ->; [| done].
  unfold internalInit. eff_norm. rewrite Hdb. eff_norm.
  unfold getItem. rewrite Hmarker, Hsub. simpl.
  destruct (String.eqb_spec marker ""); [done |]. simpl.
  destruct Hperm as [-> | ->]; simpl.
  - eff_done. reflexivity.
  - rewrite String.eqb_refl, orb_true_r. eff_done. reflexivity.
Qed.

Lemma internalInit_session_short_circuit_witness :
  let w := mkWorld ∅ false None
             {[ "ONE_SIGNAL_SESSION" := "true";
                "ONE_SIGNAL_NOTIFICATION_PERMISSION" := "default" ]} in
  internalInit https_page w =
  mkStep (Returned tt) w
    [ Log Debug "Called %cinternalInit()";
      DatabaseGet "Ids" "appId";
      EventTrigger SDK_INITIALIZED ]
    []
  /\ events (trace (internalInit https_page w)) = [SDK_INITIALIZED].
Proof.
  intros w.
  apply (internalInit_session_short_circuit https_page w
           (VStr "b2f7f966-d8cc-11e4-bed1-df8f05be55ba") "true").
  - reflexivity.
  - reflexivity.
  - discriminate.
  - reflexivity.
  - right. reflexivity.
Defined.

(** C3, as stated, fails when the read of the application id, which
    [internalInit] awaits before it looks at the session, is rejected: with
    the session marker set, no subdomain configured and the permission equal
    to the one last recorded, the call fails with the read's error and
    triggers no event. *)
Lemma internalInit_session_short_circuit_read_rejected :
  let env := https_page_without_database in
  let w := mkWorld ∅ false None
             {[ "ONE_SIGNAL_SESSION" := "true";
                "ONE_SIGNAL_NOTIFICATION_PERMISSION" := "default" ]} in
  sessionStorage w !! "ONE_SIGNAL_SESSION" = Some "true"
  /\ truthy (get (config w) "subdomainName") = false
  /\ sessionStorage w !! "ONE_SIGNAL_NOTIFICATION_PERMISSION"
     = Some (notification_permission env)
  /\ internalInit env w =
     mkStep (Threw (OtherError "InvalidStateError")) w
       [ Log Debug "Called %cinternalInit()"; DatabaseGet "Ids" "appId" ]
       []
  /\ events (trace (internalInit env w)) = [].
Proof. repeat split; reflexivity. Qed.

(** When the read of the application id fails, [internalInit] fails with it
    before reaching the guard. *)
Lemma internalInit_appId_read_rejected (env : Env) (w : World) (e : JsError) :
  db_get_appId env = Rejected e ->
  internalInit env w =
  mkStep (Threw e) w [Log Debug "Called %cinternalInit()"; DatabaseGet "Ids" "appId"] [].
Proof.
  intros Hdb. unfold internalInit. eff_norm. rewrite Hdb. eff_done. reflexivity.
Qed.

(** C7, as the code has it: when the read of the application id has
    resolved, the session short-circuit does not apply, the browser is not
    Safari, [autoRegister] is [false] itself and no subdomain is configured,
    [internalInit] triggers [SDK_INITIALIZED] before it even asks whether push
    is enabled.  When that answer comes, a subscribed user who is not on the
    workaround path is registered again for push, and otherwise the service
    worker is updated; when it never comes or fails there is no follow-up,
    and the event has been triggered all the same. *)
Theorem internalInit_autoRegister_disabled (env : Env) (w : World)
    (appId : JsValue) :
  db_get_appId env = Fulfilled appId ->
  truthy (getItem w "ONE_SIGNAL_SESSION")
  && (String.eqb (notification_permission env) "denied"
      || loose_eq_string (getItem w "ONE_SIGNAL_NOTIFICATION_PERMISSION")
           (notification_permission env)) = false ->
  browser_safari env = false ->
  get (config w) "autoRegister" = VBool false ->
  truthy (get (config w) "subdomainName") = false ->
  let r := internalInit env w in
  trace r =
  [ Log Debug "Called %cinternalInit()";
    DatabaseGet "Ids" "appId";
    SessionStorageSetItem "ONE_SIGNAL_NOTIFICATION_PERMISSION"
                          (notification_permission env);
    Log Debug "Skipping internal init. Not auto-registering and no subdomain.";
    EventTrigger SDK_INITIALIZED;
    IsPushNotificationsEnabled ]
  ++ match isPushNotificationsEnabled env with
     | Fulfilled isPushEnabled =>
         if truthy isPushEnabled && negb (isUsingSubscriptionWorkaround env)
         then [ Log Info "Because the user is already subscribed and has enabled notifications, we will re-register their GCM token.";
                RegisterForW3CPush ∅ ]
         else [ UpdateServiceWorker ]
     | Rejected _ | Pending => []
     end
  /\ events (trace r) = [SDK_INITIALIZED]
  /\ registered r = []
  /\ completion r =
     match isPushNotificationsEnabled env with
     | Fulfilled _ => Returned tt
     | Rejected e => Threw e
     | Pending => Suspended
     end.
Proof.
  intros Hdb Hguard Hsafari Hauto Hsub r. subst r.
  unfold internalInit, setItem. eff_norm. rewrite Hdb. eff_norm.
  rewrite Hsub. simpl negb. rewrite andb_true_r, Hguard. eff_norm.
  rewrite Hsafari, Hauto. simpl. eff_norm.
  destruct (isPushNotificationsEnabled env) as [isPushEnabled | e |].
  - destruct (truthy isPushEnabled && negb (isUsingSubscriptionWorkaround env));
      eff_norm; eff_done; done.
  - eff_done. done.
  - eff_done. done.
Qed.

Lemma internalInit_autoRegister_disabled_witness :
  let r := internalInit https_page (new_tab {[ "autoRegister" := VBool false ]}) in
  trace r =
  [ Log Debug "Called %cinternalInit()";
    DatabaseGet "Ids" "appId";
    SessionStorageSetItem "ONE_SIGNAL_NOTIFICATION_PERMISSION" "default";
    Log Debug "Skipping internal init. Not auto-registering and no subdomain.";
    EventTrigger SDK_INITIALIZED;
    IsPushNotificationsEnabled;
    Log Info "Because the user is already subscribed and has enabled notifications, we will re-register their GCM token.";
    RegisterForW3CPush ∅ ]
  /\ events (trace r) = [SDK_INITIALIZED]
  /\ registered r = []
  /\ completion r = Returned tt.
Proof.
  apply (internalInit_autoRegister_disabled https_page
           (new_tab {[ "autoRegister" := VBool false ]})
           (VStr "b2f7f966-d8cc-11e4-bed1-df8f05be55ba")); reflexivity.
Defined.

(** C7, as stated, fails where an earlier guard of [internalInit] decides
    first.  On Safari, with [autoRegister: false] and no subdomain, the call
    returns after the terminal event with no follow-up at all, although the
    user is subscribed; and so does a call in a session whose marker is set
    and whose permission did not change. *)
Lemma internalInit_autoRegister_disabled_no_followup :
  let cfg : gmap string JsValue := {[ "autoRegister" := VBool false ]} in
  let seen := mkWorld cfg false None
                {[ "ONE_SIGNAL_SESSION" := "true";
                   "ONE_SIGNAL_NOTIFICATION_PERMISSION" := "default" ]} in
  get cfg "autoRegister" = VBool false
  /\ truthy (get cfg "subdomainName") = false
  /\ isPushNotificationsEnabled safari_page = Fulfilled (VBool true)
  /\ isUsingSubscriptionWorkaround safari_page = false
  /\ internalInit safari_page (new_tab cfg) =
     mkStep (Returned tt)
       (mkWorld cfg false None {[ "ONE_SIGNAL_NOTIFICATION_PERMISSION" := "default" ]})
       [ Log Debug "Called %cinternalInit()";
         DatabaseGet "Ids" "appId";
         SessionStorageSetItem "ONE_SIGNAL_NOTIFICATION_PERMISSION" "default";
         Log Debug "On Safari and autoregister is false, skipping sessionInit().";
         EventTrigger SDK_INITIALIZED ]
       []
  /\ isPushNotificationsEnabled https_page = Fulfilled (VBool true)
  /\ isUsingSubscriptionWorkaround https_page = false
  /\ internalInit https_page seen =
     mkStep (Returned tt) seen
       [ Log Debug "Called %cinternalInit()";
         DatabaseGet "Ids" "appId";
         EventTrigger SDK_INITIALIZED ]
       [].
Proof. repeat split; reflexivity. Qed.

(** ** More on the configuration merge *)

(** Every property of the merged configuration, read off the two inputs. *)
Lemma getMergedLegacyConfig_lookup (userConfig : gmap string JsValue)
    (serverConfig : AppConfig) (k : string) :
  getMergedLegacyConfig userConfig serverConfig !! k =
  if decide (k = "subdomainName") then
    if truthy (get userConfig "subdomainName") then userConfig !! k else None
  else
    match delete "__proto__" userConfig !! k with
    | Some v => Some v
    | None =>
        if decide (k = "cookieSyncEnabled") then Some (cookieSyncEnabled serverConfig)
        else if decide (k = "safari_web_id") then Some (safariWebId serverConfig)
        else if decide (k = "path") then Some (VStr "/")
        else None
    end.
Proof.
  unfold getMergedLegacyConfig, objectAssign. simpl. unfold assign.
  destruct (truthy (get userConfig "subdomainName")) eqn:Hsub; simpl.
  - case_decide as Hk.
    + subst k. unfold get in Hsub.
      destruct (userConfig !! "subdomainName") as [v |] eqn:Hu; [| done].
      apply lookup_union_Some_l. by rewrite lookup_delete_ne.
    + rewrite lookup_union. destruct (delete "__proto__" userConfig !! k) as [v |]; simpl.
      * by destruct (_ !! k).
      * rewrite (left_id_L None _).
        rewrite !lookup_union, !lookup_delete, !lookup_singleton.
        repeat case_decide; subst; simpl; try done.
  - rewrite lookup_delete. case_decide as Hk; case_decide; try congruence.
    rewrite lookup_union. destruct (delete "__proto__" userConfig !! k) as [v |]; simpl.
    + by destruct (_ !! k).
    + rewrite (left_id_L None _).
      rewrite !lookup_union, !lookup_delete, !lookup_singleton.
      repeat case_decide; subst; simpl; try done.
Qed.

(** X1: the subdomain the server provides never reaches the merged
    configuration: two server configurations that differ in their subdomain
    only give the same result, whatever the caller supplied. *)
Theorem getMergedLegacyConfig_ignores_server_subdomain
    (userConfig : gmap string JsValue) (subdomain1 subdomain2 id sync : JsValue) :
  getMergedLegacyConfig userConfig (mkAppConfig subdomain1 id sync)
  = getMergedLegacyConfig userConfig (mkAppConfig subdomain2 id sync).
Proof. apply map_eq. intros k. by rewrite !getMergedLegacyConfig_lookup. Qed.



(** X3: what the caller leaves out is filled in: [path] is ["/"],
    [safari_web_id] and [cookieSyncEnabled] are the server's values (a
    missing server value gives the key with [undefined]); nothing else is
    added. *)
Theorem getMergedLegacyConfig_defaults (userConfig : gmap string JsValue)
    (serverConfig : AppConfig) (k : string) :
  userConfig !! k = None ->
  getMergedLegacyConfig userConfig serverConfig !! k =
  if decide (k = "path") then Some (VStr "/")
  else if decide (k = "safari_web_id") then Some (safariWebId serverConfig)
  else if decide (k = "cookieSyncEnabled") then Some (cookieSyncEnabled serverConfig)
  else None.
Proof.
  intros Hu. rewrite getMergedLegacyConfig_lookup.
  rewrite (proj2 (lookup_delete_None userConfig "__proto__" k) (or_intror Hu)), Hu.
  repeat case_decide; subst; try done.
  by destruct (truthy _).
Qed.

Lemma getMergedLegacyConfig_defaults_witness :
  let userConfig : gmap string JsValue := {[ "appId" := VStr "b2f7f966" ]} in
  let serverConfig := mkAppConfig (VStr "foo") VUndefined (VBool true) in
  let merged := getMergedLegacyConfig userConfig serverConfig in
  merged !! "path" = Some (VStr "/")
  /\ merged !! "safari_web_id" = Some VUndefined
  /\ merged !! "cookieSyncEnabled" = Some (VBool true)
  /\ merged !! "autoRegister" = None.
Proof.
  intros userConfig serverConfig merged. subst merged. split; [| split; [| split]].
  - exact (getMergedLegacyConfig_defaults userConfig serverConfig "path" eq_refl).
  - exact (getMergedLegacyConfig_defaults userConfig serverConfig "safari_web_id"
             eq_refl).
  - exact (getMergedLegacyConfig_defaults userConfig serverConfig "cookieSyncEnabled"
             eq_refl).
  - exact (getMergedLegacyConfig_defaults userConfig serverConfig "autoRegister"
             eq_refl).
Defined.


(** ** More on option persistence *)

(** X5: the other options have their defaults too.  The click handler
    options fall back to ["exact"] and ["navigate"] when the configuration has
    no value or a falsy one, and a truthy configured value is persisted as it
    is; [serviceWorkerRefetchRequests] is persisted as [false] only when the
    configuration says [false] itself and as [true] for any other value;
    [webhooks.cors] is persisted as [true] exactly when the [webhooks] object
    has a truthy [cors], and as [false] otherwise. *)
Theorem saveInitOptions_other_options (w : World) (db : gmap string JsValue) :
  let persisted k := Options_after (trace (saveInitOptions w)) db !! k in
  let configured k := get (config w) k in
  persisted "notificationClickHandlerMatch"
  = Some (if truthy (configured "notificationClickHandlerMatch")
          then configured "notificationClickHandlerMatch" else VStr "exact")
  /\ persisted "notificationClickHandlerAction"
     = Some (if truthy (configured "notificationClickHandlerAction")
             then configured "notificationClickHandlerAction" else VStr "navigate")
  /\ persisted "serviceWorkerRefetchRequests"
     = Some (VBool (negb (is_false (configured "serviceWorkerRefetchRequests"))))
  /\ persisted "webhooks.cors"
     = Some (VBool (truthy (configured "webhooks")
                    && truthy (getProp (configured "webhooks") "cors"))).
Proof.
  intros persisted configured. subst persisted configured. cbv beta.
  rewrite !Options_after_saveInitOptions.
  repeat (case_decide; [done |]). split; [done |]. split; [done |]. split.
  - by destruct (is_false _).
  - by destruct (truthy _ && truthy _).
Qed.

(** X6: [saveInitOptions] writes its eight options and no other: any other
    key of the [Options] table keeps what it had, and each of the eight gets
    a value that is never [undefined], either [false] or a truthy value. *)
Theorem saveInitOptions_writes (w : World) (db : gmap string JsValue) (k : string) :
  (k ∉ savedOptions ->
   Options_after (trace (saveInitOptions w)) db !! k = db !! k)
  /\ (k ∈ savedOptions ->
      exists v : JsValue,
        Options_after (trace (saveInitOptions w)) db !! k = Some v
        /\ (v = VBool false \/ truthy v = true)).
Proof.
  rewrite Options_after_saveInitOptions. unfold savedOptions. split.
  - intros Hk.
    repeat (case_decide;
            [subst; exfalso; apply Hk;
             repeat (apply elem_of_cons; ((by left) || right)) |]).
    done.
  - intros Hk.
    repeat (apply elem_of_cons in Hk as [-> | Hk]); [.. | by apply elem_of_nil in Hk];
      repeat (case_decide; [| done]); repeat (case_decide; [done |]);
      eexists; (split; [reflexivity |]).
    + destruct (is_false _); [by left |]. destruct (is_true _); by right.
    + destruct (truthy _ && truthy _) eqn:Hc; [| by left].
      right. by apply andb_true_iff in Hc as [_ Hc].
    + destruct (truthy _ && truthy _) eqn:Hc; [| by left].
      right. by apply andb_true_iff in Hc as [_ Hc].
    + destruct (truthy _ && truthy _) eqn:Hc; [| by left].
      right. by apply andb_true_iff in Hc as [_ Hc].
    + destruct (truthy _ && truthy _); [by right | by left].
    + destruct (truthy _) eqn:Hc; by right.
    + destruct (truthy _) eqn:Hc; by right.
    + destruct (is_false _); [by left | by right].
Qed.

Lemma saveInitOptions_writes_witness :
  let db : gmap string JsValue := {[ "pageTitle" := VStr "Home" ]} in
  Options_after (trace (saveInitOptions (new_tab ∅))) db !! "pageTitle"
  = Some (VStr "Home")
  /\ exists v : JsValue,
       Options_after (trace (saveInitOptions (new_tab ∅))) db !! "webhooks.cors"
       = Some v
       /\ (v = VBool false \/ truthy v = true).
Proof.
  intros db. split.
  - apply (proj1 (saveInitOptions_writes (new_tab ∅) db "pageTitle")).
    unfold savedOptions. intros Hk.
    repeat (apply elem_of_cons in Hk as [Hk | Hk]; [discriminate |]).
    by apply elem_of_nil in Hk.
  - apply (proj2 (saveInitOptions_writes (new_tab ∅) db "webhooks.cors")).
    unfold savedOptions. do 4 apply list_elem_of_further. apply list_elem_of_here.
Defined.

(** X7: saving the options again changes nothing: [saveInitOptions] leaves
    the shared state as it is, and a second run over the table of the first
    gives the same table. *)
Theorem saveInitOptions_idempotent (w : World) (db : gmap string JsValue) :
  world (saveInitOptions w) = w
  /\ Options_after (trace (saveInitOptions (world (saveInitOptions w))))
       (Options_after (trace (saveInitOptions w)) db)
     = Options_after (trace (saveInitOptions w)) db.
Proof.
  assert (world (saveInitOptions w) = w) as Hw by by rewrite saveInitOptions_run.
  split; [done |]. rewrite Hw. apply map_eq. intros k.
  rewrite Options_after_saveInitOptions.
  rewrite (Options_after_saveInitOptions w db k).
  repeat (case_decide; [done |]). done.
Qed.

(** ** More on the subscription flow selector *)

Ltac eff_bool := cbn [negb andb orb fst snd app]; cbv beta iota.

Lemma act_run (a : Action) (w : World) : act a w = mkStep (Returned tt) w [a] [].
Proof. reflexivity. Qed.

Lemma register_run (t : Task) (w : World) :
  register t w = mkStep (Returned tt) w [] [t].
Proof. reflexivity. Qed.

Lemma ret_run {A : Type} (a : A) (w : World) :
  (mret a : Eff A) w = mkStep (Returned a) w [] [].
Proof. reflexivity. Qed.

Lemma after_action_step {A : Type} (a : Action) (c : Completion A) (w : World)
    (tr : list Action) (ts : list Task) :
  after_action a (mkStep c w tr ts) = mkStep c w (a :: tr) ts.
Proof. reflexivity. Qed.

Lemma after_register_step {A : Type} (t : Task) (c : Completion A) (w : World)
    (tr : list Action) (ts : list Task) :
  after_register t (mkStep c w tr ts) = mkStep c w tr (t :: ts).
Proof. reflexivity. Qed.

(** Finish a normalised run, from the innermost step outwards. *)
Ltac eff_finish :=
  rewrite ?act_run, ?register_run, ?ret_run;
  repeat first [rewrite after_action_step | rewrite after_register_step];
  eff_done.

Lemma initialized_count_app (tr1 tr2 : list Action) :
  initialized_count (tr1 ++ tr2) = initialized_count tr1 + initialized_count tr2.
Proof. unfold initialized_count. by rewrite filter_app, length_app. Qed.

Lemma sessionInit_running (env : Env) (options : gmap string JsValue) (w : World) :
  _sessionInitAlreadyRunning w = true ->
  sessionInit env options w =
  mkStep (Returned tt) w
    [ Log Debug "Called %csessionInit(${JSON.stringify(options)})";
      Log Debug "Returning from sessionInit because it has already been called." ]
    [].
Proof.
  intros Hw. unfold sessionInit. eff_norm. rewrite Hw. eff_done. reflexivity.
Qed.

(** The whole run of a call that passes the latch: the flow it starts and
    the callback it leaves, branch by branch. *)
Lemma sessionInit_run (env : Env) (options : gmap string JsValue) (w : World) :
  _sessionInitAlreadyRunning w = false ->
  sessionInit env options w =
  let cfg := config w in
  let flow : list Action * list Task :=
    if browser_safari env then
      if truthy (get cfg "safari_web_id")
      then ([GetAppId], [SafariPermissionRequest])
      else ([], [])
    else if truthy (get options "modalPrompt") && truthy (get options "fromRegisterFor")
    then ([GetAppId; IsPushNotificationsEnabled; GetNotificationPermission],
          [ModalHostLoad options])
    else if serviceWorker_in_navigator env && negb (isUsingSubscriptionWorkaround env)
    then
      if truthy (get options "__sdkCall") && negb (wasHttpsNativePromptDismissed env)
      then ([EventTrigger PERMISSION_PROMPT_DISPLAYED; NotificationRequestPermission],
            [NativePromptCallback options])
      else if truthy (get options "__sdkCall") && wasHttpsNativePromptDismissed env
      then ([Log Debug "OneSignal: Not automatically showing native HTTPS prompt because the user previously dismissed it.";
             SetSessionInitAlreadyRunning false], [])
      else ([RegisterForW3CPush options], [])
    else
      ((if negb (is_true (get cfg "autoRegister"))
        then [Log Debug "OneSignal: Not automatically showing popover because autoRegister is not specifically true."]
        else [])
       ++ (if isHttpPromptAlreadyShown env
           then [Log Debug "OneSignal: Not automatically showing popover because it was previously shown in the same session."]
           else [])
       ++ (if is_true (get cfg "autoRegister") && negb (isHttpPromptAlreadyShown env)
           then [ShowHttpPrompt] else []),
       if is_true (get cfg "autoRegister") && negb (isHttpPromptAlreadyShown env)
       then [HttpPromptCatch] else []) in
  mkStep (Returned tt)
    (mkWorld cfg (negb (prompt_was_dismissed env options))
             (subscriptionModalHost w) (sessionStorage w))
    ([ Log Debug "Called %csessionInit(${JSON.stringify(options)})";
       SetSessionInitAlreadyRunning true ]
     ++ flow.1 ++ [EventTrigger SDK_INITIALIZED])
    flow.2.
Proof.
  intros Hlatch. unfold sessionInit, set_sessionInitAlreadyRunning, prompt_was_dismissed.
  eff_norm. rewrite Hlatch. eff_norm. cbv zeta.
  destruct (truthy (get options "__sdkCall")), (wasHttpsNativePromptDismissed env);
    eff_bool; repeat (eff_case; eff_norm); eff_finish; eff_bool; reflexivity.
Qed.

(** Split a run given by [sessionInit_run] into its branches. *)
Ltac sessionInit_cases env options :=
  destruct (truthy (get options "__sdkCall")), (wasHttpsNativePromptDismissed env);
  eff_bool;
  repeat (match goal with |- context [if ?c then _ else _] => destruct c end;
          eff_bool).

(** X8: [sessionInit] never touches the configuration, the session storage
    or the modal host, whatever branch it takes; it starts at most one
    subscription flow and leaves at most one callback behind. *)
Theorem sessionInit_invariants (env : Env) (options : gmap string JsValue)
    (w : World) :
  let r := sessionInit env options w in
  config (world r) = config w
  /\ sessionStorage (world r) = sessionStorage w
  /\ subscriptionModalHost (world r) = subscriptionModalHost w
  /\ length (filter (fun a => starts_flow a = true) (trace r)) <= 1
  /\ length (registered r) <= 1.
Proof.
  intros r. subst r. destruct (_sessionInitAlreadyRunning w) eqn:Hlatch.
  - rewrite (sessionInit_running _ _ _ Hlatch). simpl. repeat split; lia.
  - rewrite (sessionInit_run _ _ _ Hlatch). cbv zeta.
    unfold prompt_was_dismissed.
    sessionInit_cases env options; simpl; repeat split; lia.
Qed.

(** A call that passes the latch leaves it set on every branch but one:
    the SDK's own call after the user dismissed the native prompt clears it
    again before returning. *)
Lemma sessionInit_latch_after (env : Env) (options : gmap string JsValue)
    (w : World) :
  _sessionInitAlreadyRunning w = false ->
  _sessionInitAlreadyRunning (world (sessionInit env options w))
  = negb (prompt_was_dismissed env options).
Proof. intros Hlatch. by rewrite (sessionInit_run _ _ _ Hlatch). Qed.


(** X9: [sessionInit] asks for the browser's permission dialog exactly
    when the call passes the latch off Safari, no modal prompt is asked for,
    native push is available without the workaround, the call is the SDK's
    own and the user did not dismiss the prompt before.  The prompt is
    announced on the event bus exactly then; the answer is left to a
    callback, and nothing is registered for push before it comes. *)
Theorem sessionInit_native_prompt (env : Env) (options : gmap string JsValue)
    (w : World) :
  _sessionInitAlreadyRunning w = false ->
  let r := sessionInit env options w in
  let asks :=
    negb (browser_safari env)
    && negb (truthy (get options "modalPrompt") && truthy (get options "fromRegisterFor"))
    && (serviceWorker_in_navigator env && negb (isUsingSubscriptionWorkaround env))
    && (truthy (get options "__sdkCall") && negb (wasHttpsNativePromptDismissed env)) in
  requests_native_permission (trace r) = asks
  /\ announces_prompt (trace r) = asks
  /\ (asks = true ->
      side_effects (trace r) =
      [ SetSessionInitAlreadyRunning true;
        EventTrigger PERMISSION_PROMPT_DISPLAYED;
        NotificationRequestPermission;
        EventTrigger SDK_INITIALIZED ]
      /\ registered r = [NativePromptCallback options]).
Proof.
  intros Hlatch r asks. subst r asks.
  rewrite (sessionInit_run _ _ _ Hlatch). cbv zeta.
  unfold prompt_was_dismissed. sessionInit_cases env options; done.
Qed.

Lemma sessionInit_native_prompt_witness :
  let options : gmap string JsValue := {[ "__sdkCall" := VBool true ]} in
  let r := sessionInit https_page options (new_tab ∅) in
  requests_native_permission (trace r) = true
  /\ announces_prompt (trace r) = true
  /\ side_effects (trace r) =
     [ SetSessionInitAlreadyRunning true;
       EventTrigger PERMISSION_PROMPT_DISPLAYED;
       NotificationRequestPermission;
       EventTrigger SDK_INITIALIZED ]
  /\ registered r = [NativePromptCallback options].
Proof.
  intros options r.
  destruct (sessionInit_native_prompt https_page options (new_tab ∅) eq_refl)
    as (Hasks & Hannounces & Hrun).
  split; [exact Hasks |]. split; [exact Hannounces |]. exact (Hrun eq_refl).
Defined.

(** X10: a call that is not the SDK's own (a click on a subscribe button,
    say) and reaches the native branch is registered for push at once, with
    the options of the call, without asking for the permission dialog and
    whether or not the prompt was dismissed before; no other call of
    [sessionInit] registers for push itself. *)
Theorem sessionInit_direct_registration (env : Env)
    (options : gmap string JsValue) (w : World) :
  _sessionInitAlreadyRunning w = false ->
  let r := sessionInit env options w in
  let direct :=
    negb (browser_safari env)
    && negb (truthy (get options "modalPrompt") && truthy (get options "fromRegisterFor"))
    && (serviceWorker_in_navigator env && negb (isUsingSubscriptionWorkaround env))
    && negb (truthy (get options "__sdkCall")) in
  registers_for_push (trace r) = direct
  /\ (direct = true ->
      side_effects (trace r) =
      [ SetSessionInitAlreadyRunning true;
        RegisterForW3CPush options;
        EventTrigger SDK_INITIALIZED ]
      /\ registered r = []).
Proof.
  intros Hlatch r direct. subst r direct.
  rewrite (sessionInit_run _ _ _ Hlatch). cbv zeta.
  unfold prompt_was_dismissed. sessionInit_cases env options; done.
Qed.

Lemma sessionInit_direct_registration_witness :
  let options : gmap string JsValue := {[ "fromRegisterFor" := VBool true ]} in
  let r := sessionInit https_page options (new_tab ∅) in
  registers_for_push (trace r) = true
  /\ side_effects (trace r) =
     [ SetSessionInitAlreadyRunning true;
       RegisterForW3CPush options;
       EventTrigger SDK_INITIALIZED ]
  /\ registered r = [].
Proof.
  intros options r.
  destruct (sessionInit_direct_registration https_page options (new_tab ∅) eq_refl)
    as (Hdirect & Hrun).
  split; [exact Hdirect |]. exact (Hrun eq_refl).
Defined.

(** On Safari the options of the call make no difference: whatever is
    passed ([modalPrompt], [__sdkCall], ...), the call has the same effects,
    leaves the same state and the same callback. *)
Lemma sessionInit_safari_ignores_options (env : Env)
    (options options' : gmap string JsValue) (w : World) :
  browser_safari env = true ->
  side_effects (trace (sessionInit env options w))
  = side_effects (trace (sessionInit env options' w))
  /\ world (sessionInit env options w) = world (sessionInit env options' w)
  /\ registered (sessionInit env options w) = registered (sessionInit env options' w)
  /\ requests_native_permission (trace (sessionInit env options w)) = false
  /\ registers_for_push (trace (sessionInit env options w)) = false
  /\ shows_http_prompt (trace (sessionInit env options w)) = false.
Proof.
  intros Hsafari. destruct (_sessionInitAlreadyRunning w) eqn:Hlatch.
  - by rewrite !(sessionInit_running _ _ _ Hlatch).
  - rewrite !(sessionInit_run _ _ _ Hlatch). cbv zeta.
    unfold prompt_was_dismissed. rewrite Hsafari.
    by destruct (truthy (get (config w) "safari_web_id")).
Qed.

Lemma sessionInit_run_initialized_count (env : Env)
    (options : gmap string JsValue) (w : World) :
  _sessionInitAlreadyRunning w = false ->
  initialized_count (trace (sessionInit env options w)) = 1.
Proof.
  intros Hlatch. rewrite (sessionInit_run _ _ _ Hlatch). cbv zeta.
  sessionInit_cases env options; reflexivity.
Qed.

Lemma sessionInit_calls_running (env : Env) (options : gmap string JsValue)
    (n : nat) (w : World) :
  _sessionInitAlreadyRunning w = true ->
  (sessionInit_calls env options n w).1 = w
  /\ initialized_count (sessionInit_calls env options n w).2 = 0.
Proof.
  intros Hw. induction n as [| n [IHw IHc]]; [done |].
  cbn [sessionInit_calls fst snd]. rewrite (sessionInit_running _ _ _ Hw).
  cbn [world trace]. rewrite initialized_count_app, IHc. by split.
Qed.

Lemma sessionInit_dismissed_world (env : Env) (options : gmap string JsValue)
    (w : World) :
  _sessionInitAlreadyRunning w = false ->
  prompt_was_dismissed env options = true ->
  world (sessionInit env options w) = w.
Proof.
  intros Hlatch Hd. rewrite (sessionInit_run _ _ _ Hlatch). cbn [world].
  rewrite Hd. destruct w. simpl in *. by subst.
Qed.

(** X11: over a session in which the page keeps answering the same, [n]
    calls of [sessionInit] trigger the terminal event once in all, the first
    time, the later calls being stopped by the latch; except for the SDK's
    own call after the prompt was dismissed, which clears the latch and so
    triggers the event again at each of the [n] calls. *)
Theorem sessionInit_calls_initialized (env : Env) (options : gmap string JsValue)
    (n : nat) (w : World) :
  _sessionInitAlreadyRunning w = false ->
  initialized_count (sessionInit_calls env options n w).2
  = if prompt_was_dismissed env options then n else min n 1.
Proof.
  intros Hlatch.
  pose proof (sessionInit_run_initialized_count env options w Hlatch) as Hone.
  destruct (prompt_was_dismissed env options) eqn:Hd.
  - induction n as [| n IH]; [done |].
    cbn [sessionInit_calls fst snd]. rewrite initialized_count_app, Hone.
    by rewrite (sessionInit_dismissed_world _ _ _ Hlatch Hd), IH.
  - destruct n as [| n]; [done |].
    cbn [sessionInit_calls fst snd]. rewrite initialized_count_app, Hone.
    pose proof (sessionInit_latch_after env options w Hlatch) as Hafter.
    rewrite Hd in Hafter.
    rewrite (proj2 (sessionInit_calls_running env options n _ Hafter)). lia.
Qed.

Lemma sessionInit_calls_initialized_witness :
  let options : gmap string JsValue := {[ "__sdkCall" := VBool true ]} in
  initialized_count (sessionInit_calls https_page options 3 (new_tab ∅)).2 = 1.
Proof.
  intros options.
  exact (sessionInit_calls_initialized https_page options 3 (new_tab ∅) eq_refl).
Defined.

(** ** The callbacks of the subscription flows *)

Lemma run_task_native (env : Env) (options : gmap string JsValue) (w : World) :
  run_task env (NativePromptCallback options) w =
  mkStep (Returned tt) w
    match requestPermission_result env with
    | None => []
    | Some permission =>
        CheckAndTriggerNotificationPermissionChanged
        :: (if String.eqb permission "granted" then [RegisterForW3CPush options]
            else if String.eqb (notification_permission env) "default"
            then [TriggerNotificationPermissionChanged (Some true);
                  MarkHttpsNativePromptDismissed]
            else [])
    end
    [].
Proof.
  unfold run_task. destruct (requestPermission_result env) as [permission |].
  - eff_norm. destruct (String.eqb permission "granted"); [eff_done; done |].
    destruct (String.eqb (notification_permission env) "default");
      eff_norm; eff_done; done.
  - done.
Qed.

Lemma run_task_safari (env : Env) (w : World) :
  run_task env SafariPermissionRequest w =
  match getAppId env with
  | Fulfilled appId =>
      mkStep (Returned tt) w
        (SafariRequestPermission (oneSignalApiUrl env +:+ "/safari")
                                 (get (config w) "safari_web_id") appId
         :: match safari_pushResponse env with
            | None => []
            | Some pushResponse =>
                [ Log Info "Safari Registration Result:";
                  match deviceToken pushResponse with
                  | Some token =>
                      if negb (String.eqb token "")
                      then RegisterWithOneSignal appId (toLowerCase token)
                      else BeginTemporaryBrowserSession
                  | None => BeginTemporaryBrowserSession
                  end;
                  TriggerNotificationPermissionChanged None ]
            end)
        []
  | Rejected e => mkStep (Threw e) w [] []
  | Pending => mkStep Suspended w [] []
  end.
Proof.
  unfold run_task. eff_norm. destruct (getAppId env) as [appId | e |]; [| done | done].
  eff_norm. destruct (safari_pushResponse env) as [[[token |]] |]; simpl.
  - destruct (negb (String.eqb token "")); eff_norm; eff_done; done.
  - eff_norm; eff_done; done.
  - eff_done; done.
Qed.

Lemma run_task_modal (env : Env) (options : gmap string JsValue) (w : World) :
  run_task env (ModalHostLoad options) w =
  match Promise_all3 (getAppId env) (isPushNotificationsEnabled env)
                     (getNotificationPermission env) with
  | Fulfilled r =>
      mkStep (Returned tt)
        (mkWorld (config w) (_sessionInitAlreadyRunning w)
                 (Some (r.1.1, options)) (sessionStorage w))
        [NewSubscriptionModalHost r.1.1 options; SubscriptionModalHostLoad]
        []
  | Rejected e => mkStep (Threw e) w [] []
  | Pending => mkStep Suspended w [] []
  end.
Proof.
  unfold run_task, set_subscriptionModalHost. eff_norm.
  destruct (Promise_all3 _ _ _) as [r | e |]; [| done | done].
  eff_norm. eff_done. done.
Qed.

Lemma run_task_http (env : Env) (w : World) :
  run_task env HttpPromptCatch w =
  match showHttpPrompt env with
  | Fulfilled _ => mkStep (Returned tt) w [] []
  | Rejected e =>
      if httpPrompt_recoverable e
      then mkStep (Returned tt) w [Log Debug "[Prompt Not Showing]"] []
      else mkStep (Threw e) w [] []
  | Pending => mkStep Suspended w [] []
  end.
Proof.
  unfold run_task. destruct (showHttpPrompt env) as [v | e |]; [done | | done].
  by destruct (httpPrompt_recoverable e).
Qed.

(** Split a settled run into the branches of the call and of its callback. *)
Ltac settled_cases env options :=
  unfold sessionInit_settled, prompt_was_dismissed; cbv zeta;
  destruct (truthy (get options "__sdkCall")), (wasHttpsNativePromptDismissed env);
  eff_bool;
  repeat (match goal with |- context [if ?c then _ else _] => destruct c end;
          eff_bool; cbn [registered trace world completion]);
  rewrite ?run_task_native, ?run_task_safari, ?run_task_modal, ?run_task_http;
  repeat (match goal with
          | |- context [match ?x with Fulfilled _ => _ | Rejected _ => _ | Pending => _ end] =>
              destruct x
          | |- context [match ?x with Some _ => _ | None => _ end] => destruct x
          | |- context [if ?c then _ else _] => destruct c
          end;
          eff_bool; cbn [registered trace world completion]).

(** X12: over a call of [sessionInit] and its callback, whatever the page
    answers, the device is registered at most once (for W3C push or with a
    Safari token), and the terminal event is triggered exactly once. *)
Theorem sessionInit_settled_registers_once (env : Env)
    (options : gmap string JsValue) (w : World) :
  _sessionInitAlreadyRunning w = false ->
  let r := sessionInit_settled env options w in
  length (filter (fun a => is_registration a = true) (trace r)) <= 1
  /\ initialized_count (trace r) = 1.
Proof.
  intros Hlatch r. subst r. unfold sessionInit_settled.
  rewrite (sessionInit_run _ _ _ Hlatch).
  settled_cases env options; simpl; split; (lia || reflexivity).
Qed.

Lemma sessionInit_settled_registers_once_witness :
  let r := sessionInit_settled https_page {[ "__sdkCall" := VBool true ]} (new_tab ∅) in
  length (filter (fun a => is_registration a = true) (trace r)) <= 1
  /\ initialized_count (trace r) = 1.
Proof.
  exact (sessionInit_settled_registers_once https_page {[ "__sdkCall" := VBool true ]}
           (new_tab ∅) eq_refl).
Defined.

(** X13: the native prompt from end to end.  When the SDK's own call asks
    for the permission dialog, the terminal event is triggered before the
    answer comes.  An answer of ["granted"] registers for push, once, with the
    options of the call; any other answer registers nothing, and marks the
    prompt as dismissed (after a forced permission-changed event) exactly
    when the browser then reports the permission ["default"]; without an
    answer nothing more happens. *)
Theorem sessionInit_settled_native_prompt (env : Env)
    (options : gmap string JsValue) (w : World) :
  _sessionInitAlreadyRunning w = false ->
  browser_safari env = false ->
  truthy (get options "modalPrompt") && truthy (get options "fromRegisterFor") = false ->
  serviceWorker_in_navigator env && negb (isUsingSubscriptionWorkaround env) = true ->
  truthy (get options "__sdkCall") = true ->
  wasHttpsNativePromptDismissed env = false ->
  side_effects (trace (sessionInit_settled env options w)) =
  [ SetSessionInitAlreadyRunning true;
    EventTrigger PERMISSION_PROMPT_DISPLAYED;
    NotificationRequestPermission;
    EventTrigger SDK_INITIALIZED ]
  ++ match requestPermission_result env with
     | None => []
     | Some permission =>
         CheckAndTriggerNotificationPermissionChanged
         :: (if String.eqb permission "granted" then [RegisterForW3CPush options]
             else if String.eqb (notification_permission env) "default"
             then [TriggerNotificationPermissionChanged (Some true);
                   MarkHttpsNativePromptDismissed]
             else [])
     end.
Proof.
  intros Hlatch Hsafari Hmodal Hsw Hsdk Hdismissed. unfold sessionInit_settled.
  rewrite (sessionInit_run _ _ _ Hlatch). cbv zeta.
  rewrite Hsafari, Hmodal, Hsw, Hsdk, Hdismissed. eff_bool.
  cbn [registered trace world completion]. rewrite run_task_native.
  cbn [trace]. destruct (requestPermission_result env) as [permission |]; [| done].
  destruct (String.eqb permission "granted"); [done |].
  by destruct (String.eqb (notification_permission env) "default").
Qed.

Lemma sessionInit_settled_native_prompt_witness :
  let options : gmap string JsValue := {[ "__sdkCall" := VBool true ]} in
  side_effects (trace (sessionInit_settled https_page options (new_tab ∅))) =
  [ SetSessionInitAlreadyRunning true;
    EventTrigger PERMISSION_PROMPT_DISPLAYED;
    NotificationRequestPermission;
    EventTrigger SDK_INITIALIZED;
    CheckAndTriggerNotificationPermissionChanged;
    RegisterForW3CPush options ].
Proof.
  intros options.
  exact (sessionInit_settled_native_prompt https_page options (new_tab ∅)
           eq_refl eq_refl eq_refl eq_refl eq_refl eq_refl).
Defined.

(** X14: the Safari flow from end to end.  With a [safari_web_id]
    configured, once the application id is known Safari's dialog is asked
    with the API's [/safari] endpoint, the web id and the application id.
    When it answers with a device token, a string of ASCII characters as
    Safari's hexadecimal tokens are, the device is registered with the token
    in lower case; with no token, or an empty one, a temporary browser
    session begins instead; either way a permission-changed event follows.
    The terminal event was triggered before any of this. *)
Theorem sessionInit_settled_safari (env : Env) (options : gmap string JsValue)
    (w : World) (appId : JsValue) (pushResponse : PushResponse) :
  _sessionInitAlreadyRunning w = false ->
  browser_safari env = true ->
  truthy (get (config w) "safari_web_id") = true ->
  getAppId env = Fulfilled appId ->
  safari_pushResponse env = Some pushResponse ->
  (forall token : string,
     deviceToken pushResponse = Some token -> is_ascii token = true) ->
  side_effects (trace (sessionInit_settled env options w)) =
  [ SetSessionInitAlreadyRunning true;
    GetAppId;
    EventTrigger SDK_INITIALIZED;
    SafariRequestPermission (oneSignalApiUrl env +:+ "/safari")
                            (get (config w) "safari_web_id") appId;
    match deviceToken pushResponse with
    | Some token =>
        if String.eqb token "" then BeginTemporaryBrowserSession
        else RegisterWithOneSignal appId (toLowerCase token)
    | None => BeginTemporaryBrowserSession
    end;
    TriggerNotificationPermissionChanged None ].
Proof.
  intros Hlatch Hsafari Hid HappId Hresponse _. unfold sessionInit_settled.
  rewrite (sessionInit_run _ _ _ Hlatch). cbv zeta.
  rewrite Hsafari, Hid. eff_bool.
  cbn [registered trace world completion]. rewrite run_task_safari.
  cbn [config]. rewrite HappId, Hresponse. cbn [trace].
  destruct (deviceToken pushResponse) as [token |]; [| done].
  by destruct (String.eqb token "").
Qed.

Lemma sessionInit_settled_safari_witness :
  let cfg : gmap string JsValue :=
    {[ "safari_web_id" := VStr "web.onesignal.auto.0353ec9e" ]} in
  side_effects (trace (sessionInit_settled safari_page ∅ (new_tab cfg))) =
  [ SetSessionInitAlreadyRunning true;
    GetAppId;
    EventTrigger SDK_INITIALIZED;
    SafariRequestPermission "https://onesignal.com/api/v1/safari"
      (VStr "web.onesignal.auto.0353ec9e")
      (VStr "b2f7f966-d8cc-11e4-bed1-df8f05be55ba");
    RegisterWithOneSignal (VStr "b2f7f966-d8cc-11e4-bed1-df8f05be55ba")
      "03d5d4a2ebce1ee2";
    TriggerNotificationPermissionChanged None ].
Proof.
  intros cfg.
  exact (sessionInit_settled_safari safari_page ∅ (new_tab cfg)
           (VStr "b2f7f966-d8cc-11e4-bed1-df8f05be55ba")
           {| deviceToken := Some "03D5D4A2EBCE1EE2" |}
           eq_refl eq_refl eq_refl eq_refl eq_refl
           (fun token Htoken =>
              match Htoken in _ = t
                    return match t with
                           | Some s => is_ascii s = true
                           | None => True
                           end
              with eq_refl => eq_refl end)).
Defined.

(** X15: the modal prompt is all or nothing.  The modal host is created
    (for the application id, with the options of the call) and loaded only
    when the application id, the push state and the permission have all been
    read; if one of the three reads fails or never settles, no host is
    created and nothing is loaded, although the terminal event was triggered
    already. *)
Theorem sessionInit_settled_modal (env : Env) (options : gmap string JsValue)
    (w : World) :
  _sessionInitAlreadyRunning w = false ->
  browser_safari env = false ->
  truthy (get options "modalPrompt") && truthy (get options "fromRegisterFor") = true ->
  let r := sessionInit_settled env options w in
  match getAppId env, isPushNotificationsEnabled env, getNotificationPermission env with
  | Fulfilled appId, Fulfilled _, Fulfilled _ =>
      subscriptionModalHost (world r) = Some (appId, options)
      /\ side_effects (trace r) =
         [ SetSessionInitAlreadyRunning true;
           GetAppId; IsPushNotificationsEnabled; GetNotificationPermission;
           EventTrigger SDK_INITIALIZED;
           NewSubscriptionModalHost appId options;
           SubscriptionModalHostLoad ]
  | _, _, _ =>
      subscriptionModalHost (world r) = subscriptionModalHost w
      /\ side_effects (trace r) =
         [ SetSessionInitAlreadyRunning true;
           GetAppId; IsPushNotificationsEnabled; GetNotificationPermission;
           EventTrigger SDK_INITIALIZED ]
  end.
Proof.
  intros Hlatch Hsafari Hmodal r. subst r. unfold sessionInit_settled.
  rewrite (sessionInit_run _ _ _ Hlatch). cbv zeta.
  rewrite Hsafari, Hmodal. eff_bool.
  cbn [registered trace world completion]. rewrite run_task_modal.
  destruct (getAppId env), (isPushNotificationsEnabled env),
    (getNotificationPermission env); done.
Qed.

Lemma sessionInit_settled_modal_witness :
  let options : gmap string JsValue :=
    {[ "modalPrompt" := VBool true; "fromRegisterFor" := VBool true ]} in
  let r := sessionInit_settled https_page options (new_tab ∅) in
  subscriptionModalHost (world r)
  = Some (VStr "b2f7f966-d8cc-11e4-bed1-df8f05be55ba", options)
  /\ side_effects (trace r) =
     [ SetSessionInitAlreadyRunning true;
       GetAppId; IsPushNotificationsEnabled; GetNotificationPermission;
       EventTrigger SDK_INITIALIZED;
       NewSubscriptionModalHost (VStr "b2f7f966-d8cc-11e4-bed1-df8f05be55ba") options;
       SubscriptionModalHostLoad ].
Proof.
  intros options.
  exact (sessionInit_settled_modal https_page options (new_tab ∅)
           eq_refl eq_refl eq_refl).
Defined.

(** ** More on the session guard *)

(** The whole run of [internalInit] once its read of the application id
    has resolved, guard by guard. *)
Lemma internalInit_run (env : Env) (w : World) (appId : JsValue) :
  db_get_appId env = Fulfilled appId ->
  internalInit env w =
  let cfg := config w in
  let permission := notification_permission env in
  let w1 := mkWorld cfg (_sessionInitAlreadyRunning w) (subscriptionModalHost w)
              (<["ONE_SIGNAL_NOTIFICATION_PERMISSION" := permission]> (sessionStorage w)) in
  let entry := [Log Debug "Called %cinternalInit()"; DatabaseGet "Ids" "appId"] in
  let recorded :=
    entry ++ [SessionStorageSetItem "ONE_SIGNAL_NOTIFICATION_PERMISSION" permission] in
  if truthy (getItem w "ONE_SIGNAL_SESSION")
     && negb (truthy (get cfg "subdomainName"))
     && (String.eqb permission "denied"
         || loose_eq_string (getItem w "ONE_SIGNAL_NOTIFICATION_PERMISSION") permission)
  then mkStep (Returned tt) w (entry ++ [EventTrigger SDK_INITIALIZED]) []
  else if browser_safari env && is_false (get cfg "autoRegister") then
    mkStep (Returned tt) w1
      (recorded
       ++ Log Debug "On Safari and autoregister is false, skipping sessionInit()."
          :: (if negb (isUsingSubscriptionWorkaround env)
              then [EventTrigger SDK_INITIALIZED] else []))
      []
  else if is_false (get cfg "autoRegister") && negb (truthy (get cfg "subdomainName")) then
    let skipped :=
      recorded
      ++ [ Log Debug "Skipping internal init. Not auto-registering and no subdomain.";
           EventTrigger SDK_INITIALIZED;
           IsPushNotificationsEnabled ] in
    match isPushNotificationsEnabled env with
    | Fulfilled isPushEnabled =>
        mkStep (Returned tt) w1
          (skipped
           ++ (if truthy isPushEnabled && negb (isUsingSubscriptionWorkaround env)
               then [ Log Info "Because the user is already subscribed and has enabled notifications, we will re-register their GCM token.";
                      RegisterForW3CPush ∅ ]
               else [UpdateServiceWorker]))
          []
    | Rejected e => mkStep (Threw e) w1 skipped []
    | Pending => mkStep Suspended w1 skipped []
    end
  else if negb (String.eqb (visibilityState env) "visible") then
    mkStep (Returned tt) w1 (recorded ++ [OnceVisibilityChange]) [VisibilityChangeListener]
  else
    let rs := sessionInit env {[ "__sdkCall" := VBool true ]} w1 in
    mkStep (completion rs) (world rs) (recorded ++ trace rs) (registered rs).
Proof.
  intros Hdb. unfold internalInit, setItem. eff_norm. rewrite Hdb. eff_norm. cbv zeta.
  repeat (eff_case; eff_norm); eff_finish; eff_bool; reflexivity.
Qed.

Lemma side_effects_app (tr1 tr2 : list Action) :
  side_effects (tr1 ++ tr2) = side_effects tr1 ++ side_effects tr2.
Proof. unfold side_effects. by rewrite filter_app. Qed.

(** While the read of the application id never settles, [internalInit] stays
    suspended on it. *)
Lemma internalInit_appId_read_pending (env : Env) (w : World) :
  db_get_appId env = Pending ->
  internalInit env w =
  mkStep Suspended w [Log Debug "Called %cinternalInit()"; DatabaseGet "Ids" "appId"] [].
Proof.
  intros Hdb. unfold internalInit. eff_norm. rewrite Hdb. eff_done. reflexivity.
Qed.

(** X16: on Safari with [autoRegister: false], a call of [internalInit]
    that is not stopped by the session short-circuit, once its read of the
    application id has resolved, records the permission and returns without
    starting any flow and without asking whether push is enabled; it triggers
    the terminal event unless the subscription workaround is in use, in which
    case it triggers nothing.  When that read is rejected or never settles
    the call ends there: nothing is recorded and no event is triggered. *)
Theorem internalInit_safari_opt_out (env : Env) (w : World) :
  truthy (getItem w "ONE_SIGNAL_SESSION")
  && negb (truthy (get (config w) "subdomainName"))
  && (String.eqb (notification_permission env) "denied"
      || loose_eq_string (getItem w "ONE_SIGNAL_NOTIFICATION_PERMISSION")
           (notification_permission env)) = false ->
  browser_safari env = true ->
  get (config w) "autoRegister" = VBool false ->
  let r := internalInit env w in
  let entry := [Log Debug "Called %cinternalInit()"; DatabaseGet "Ids" "appId"] in
  match db_get_appId env with
  | Fulfilled _ =>
      side_effects (trace r) =
      DatabaseGet "Ids" "appId"
      :: SessionStorageSetItem "ONE_SIGNAL_NOTIFICATION_PERMISSION"
                               (notification_permission env)
      :: (if isUsingSubscriptionWorkaround env then []
          else [EventTrigger SDK_INITIALIZED])
      /\ registered r = []
      /\ completion r = Returned tt
      /\ _sessionInitAlreadyRunning (world r) = _sessionInitAlreadyRunning w
  | Rejected e => r = mkStep (Threw e) w entry []
  | Pending => r = mkStep Suspended w entry []
  end.
Proof.
  intros Hguard Hsafari Hauto r entry. subst r entry.
  destruct (db_get_appId env) as [appId | e |] eqn:Hdb.
  - rewrite (internalInit_run _ _ _ Hdb). cbv zeta.
    rewrite Hguard, Hsafari, Hauto. eff_bool. simpl is_false. cbv iota.
    by destruct (isUsingSubscriptionWorkaround env).
  - exact (internalInit_appId_read_rejected _ _ _ Hdb).
  - exact (internalInit_appId_read_pending _ _ Hdb).
Qed.

Lemma internalInit_safari_opt_out_witness :
  let r := internalInit safari_page (new_tab {[ "autoRegister" := VBool false ]}) in
  side_effects (trace r) =
  [ DatabaseGet "Ids" "appId";
    SessionStorageSetItem "ONE_SIGNAL_NOTIFICATION_PERMISSION" "default";
    EventTrigger SDK_INITIALIZED ]
  /\ registered r = []
  /\ completion r = Returned tt
  /\ _sessionInitAlreadyRunning (world r) = false.
Proof.
  exact (internalInit_safari_opt_out safari_page
           (new_tab {[ "autoRegister" := VBool false ]})
           eq_refl eq_refl eq_refl).
Defined.

(** X17: in a tab that is not visible, a call of [internalInit] that gets
    past its guards starts nothing and triggers no event: it records the
    permission and leaves a [visibilitychange] listener.  Fired while the
    document is still hidden, the listener does nothing and stays; fired
    when the document is visible, it removes itself and then does exactly
    what [sessionInit] does for the SDK's own call. *)
Theorem internalInit_hidden_tab (env : Env) (w : World) (appId : JsValue) :
  db_get_appId env = Fulfilled appId ->
  truthy (getItem w "ONE_SIGNAL_SESSION")
  && negb (truthy (get (config w) "subdomainName"))
  && (String.eqb (notification_permission env) "denied"
      || loose_eq_string (getItem w "ONE_SIGNAL_NOTIFICATION_PERMISSION")
           (notification_permission env)) = false ->
  browser_safari env && is_false (get (config w) "autoRegister") = false ->
  is_false (get (config w) "autoRegister")
  && negb (truthy (get (config w) "subdomainName")) = false ->
  visibilityState env <> "visible" ->
  let r := internalInit env w in
  (side_effects (trace r) =
   [ DatabaseGet "Ids" "appId";
     SessionStorageSetItem "ONE_SIGNAL_NOTIFICATION_PERMISSION"
                           (notification_permission env);
     OnceVisibilityChange ]
   /\ registered r = [VisibilityChangeListener]
   /\ completion r = Returned tt)
  /\ (forall (env' : Env) (w' : World),
        visibilityState env' <> "visible" ->
        run_task env' VisibilityChangeListener w' =
        mkStep (Returned tt) w' [] [VisibilityChangeListener])
  /\ (forall (env' : Env) (w' : World),
        visibilityState env' = "visible" ->
        let rs := sessionInit env' {[ "__sdkCall" := VBool true ]} w' in
        run_task env' VisibilityChangeListener w' =
        mkStep (completion rs) (world rs) (DestroyEventListener :: trace rs)
               (registered rs)).
Proof.
  intros Hdb Hguard Hsafari Hskip Hhidden r. subst r. split; [| split].
  - rewrite (internalInit_run _ _ _ Hdb). cbv zeta.
    rewrite Hguard, Hsafari, Hskip.
    destruct (String.eqb_spec (visibilityState env) "visible"); [done |]. done.
  - intros env' w' Hv. unfold run_task.
    destruct (String.eqb_spec (visibilityState env') "visible"); [done |]. done.
  - intros env' w' Hv rs. subst rs. unfold run_task. rewrite Hv.
    rewrite String.eqb_refl. eff_norm. eff_done. reflexivity.
Qed.

Lemma internalInit_hidden_tab_witness :
  let hidden := {|
    browser_safari := false;
    notification_permission := "default";
    visibilityState := "hidden";
    serviceWorker_in_navigator := true;
    isUsingSubscriptionWorkaround := false;
    wasHttpsNativePromptDismissed := false;
    isHttpPromptAlreadyShown := false;
    oneSignalApiUrl := "https://onesignal.com/api/v1";
    db_get_appId := Fulfilled (VStr "b2f7f966-d8cc-11e4-bed1-df8f05be55ba");
    getAppId := Fulfilled (VStr "b2f7f966-d8cc-11e4-bed1-df8f05be55ba");
    isPushNotificationsEnabled := Fulfilled (VBool false);
    getNotificationPermission := Fulfilled (VStr "default");
    showHttpPrompt := Pending;
    safari_pushResponse := None;
    requestPermission_result := None
  |} in
  let r := internalInit hidden (new_tab ∅) in
  side_effects (trace r) =
  [ DatabaseGet "Ids" "appId";
    SessionStorageSetItem "ONE_SIGNAL_NOTIFICATION_PERMISSION" "default";
    OnceVisibilityChange ]
  /\ registered r = [VisibilityChangeListener]
  /\ completion r = Returned tt.
Proof.
  intros hidden.
  refine (proj1 (internalInit_hidden_tab hidden (new_tab ∅)
                   (VStr "b2f7f966-d8cc-11e4-bed1-df8f05be55ba")
                   eq_refl eq_refl eq_refl eq_refl _)).
  discriminate.
Defined.

Lemma internalInit_visible_run (env : Env) (w : World) (appId : JsValue) :
  db_get_appId env = Fulfilled appId ->
  truthy (getItem w "ONE_SIGNAL_SESSION")
  && negb (truthy (get (config w) "subdomainName"))
  && (String.eqb (notification_permission env) "denied"
      || loose_eq_string (getItem w "ONE_SIGNAL_NOTIFICATION_PERMISSION")
           (notification_permission env)) = false ->
  browser_safari env && is_false (get (config w) "autoRegister") = false ->
  is_false (get (config w) "autoRegister")
  && negb (truthy (get (config w) "subdomainName")) = false ->
  visibilityState env = "visible" ->
  let rs :=
    sessionInit env {[ "__sdkCall" := VBool true ]}
      (mkWorld (config w) (_sessionInitAlreadyRunning w) (subscriptionModalHost w)
         (<["ONE_SIGNAL_NOTIFICATION_PERMISSION" := notification_permission env]>
            (sessionStorage w))) in
  internalInit env w =
  mkStep (completion rs) (world rs)
    ([ Log Debug "Called %cinternalInit()"; DatabaseGet "Ids" "appId";
       SessionStorageSetItem "ONE_SIGNAL_NOTIFICATION_PERMISSION"
                             (notification_permission env) ] ++ trace rs)
    (registered rs).
Proof.
  intros Hdb Hguard Hsafari Hskip Hvisible.
  rewrite (internalInit_run _ _ _ Hdb). cbv zeta.
  rewrite Hguard, Hsafari, Hskip, Hvisible. reflexivity.
Qed.

(** X18: in a visible tab, a call of [internalInit] that gets past its
    guards records the permission and then does exactly what [sessionInit]
    does for the SDK's own call ([__sdkCall: true]), in the state with the
    permission recorded: the same effects, the same callback, the same final
    state. *)
Theorem internalInit_runs_sessionInit (env : Env) (w : World) (appId : JsValue) :
  db_get_appId env = Fulfilled appId ->
  truthy (getItem w "ONE_SIGNAL_SESSION")
  && negb (truthy (get (config w) "subdomainName"))
  && (String.eqb (notification_permission env) "denied"
      || loose_eq_string (getItem w "ONE_SIGNAL_NOTIFICATION_PERMISSION")
           (notification_permission env)) = false ->
  browser_safari env && is_false (get (config w) "autoRegister") = false ->
  is_false (get (config w) "autoRegister")
  && negb (truthy (get (config w) "subdomainName")) = false ->
  visibilityState env = "visible" ->
  let r := internalInit env w in
  let rs :=
    sessionInit env {[ "__sdkCall" := VBool true ]}
      (mkWorld (config w) (_sessionInitAlreadyRunning w) (subscriptionModalHost w)
         (<["ONE_SIGNAL_NOTIFICATION_PERMISSION" := notification_permission env]>
            (sessionStorage w))) in
  side_effects (trace r) =
  [ DatabaseGet "Ids" "appId";
    SessionStorageSetItem "ONE_SIGNAL_NOTIFICATION_PERMISSION"
                          (notification_permission env) ]
  ++ side_effects (trace rs)
  /\ world r = world rs
  /\ registered r = registered rs
  /\ completion r = Returned tt.
Proof.
  intros Hdb Hguard Hsafari Hskip Hvisible r rs. subst r rs.
  rewrite (internalInit_visible_run _ _ _ Hdb Hguard Hsafari Hskip Hvisible).
  cbn [trace world registered completion]. rewrite side_effects_app.
  split; [done |]. split; [done |]. split; [done |]. apply sessionInit_returns.
Qed.

Lemma internalInit_runs_sessionInit_witness :
  let r := internalInit https_page (new_tab ∅) in
  let rs :=
    sessionInit https_page {[ "__sdkCall" := VBool true ]}
      (mkWorld ∅ false None {[ "ONE_SIGNAL_NOTIFICATION_PERMISSION" := "default" ]}) in
  side_effects (trace r) =
  [ DatabaseGet "Ids" "appId";
    SessionStorageSetItem "ONE_SIGNAL_NOTIFICATION_PERMISSION" "default" ]
  ++ side_effects (trace rs)
  /\ world r = world rs
  /\ registered r = registered rs
  /\ completion r = Returned tt.
Proof.
  exact (internalInit_runs_sessionInit https_page (new_tab ∅)
           (VStr "b2f7f966-d8cc-11e4-bed1-df8f05be55ba")
           eq_refl eq_refl eq_refl eq_refl eq_refl).
Defined.

(** X19: with a subdomain configured, [internalInit] never takes the
    session short-circuit and never the no-auto-registration shortcut:
    whatever the session markers and whatever [autoRegister] says, in a
    visible tab (and unless it is Safari with [autoRegister: false]), once
    its read of the application id has resolved it records the permission
    and goes on to [sessionInit].  When that read is rejected or never
    settles the call ends there: nothing is recorded and [sessionInit] is not
    called. *)
Theorem internalInit_with_subdomain (env : Env) (w : World) :
  truthy (get (config w) "subdomainName") = true ->
  browser_safari env && is_false (get (config w) "autoRegister") = false ->
  visibilityState env = "visible" ->
  let r := internalInit env w in
  let rs :=
    sessionInit env {[ "__sdkCall" := VBool true ]}
      (mkWorld (config w) (_sessionInitAlreadyRunning w) (subscriptionModalHost w)
         (<["ONE_SIGNAL_NOTIFICATION_PERMISSION" := notification_permission env]>
            (sessionStorage w))) in
  let entry := [Log Debug "Called %cinternalInit()"; DatabaseGet "Ids" "appId"] in
  match db_get_appId env with
  | Fulfilled _ =>
      side_effects (trace r) =
      [ DatabaseGet "Ids" "appId";
        SessionStorageSetItem "ONE_SIGNAL_NOTIFICATION_PERMISSION"
                              (notification_permission env) ]
      ++ side_effects (trace rs)
      /\ world r = world rs
      /\ registered r = registered rs
  | Rejected e => r = mkStep (Threw e) w entry []
  | Pending => r = mkStep Suspended w entry []
  end.
Proof.
  intros Hsub Hsafari Hvisible r rs entry. subst r rs entry.
  destruct (db_get_appId env) as [appId | e |] eqn:Hdb.
  - rewrite (internalInit_visible_run _ _ _ Hdb); [| | done | | done].
    + cbn [trace world registered completion]. by rewrite side_effects_app.
    + rewrite Hsub. simpl. by rewrite andb_false_r.
    + rewrite Hsub. simpl. by rewrite andb_false_r.
  - exact (internalInit_appId_read_rejected _ _ _ Hdb).
  - exact (internalInit_appId_read_pending _ _ Hdb).
Qed.

Lemma internalInit_with_subdomain_witness :
  let w := mkWorld {[ "subdomainName" := VStr "example";
                      "autoRegister" := VBool false ]} false None
             {[ "ONE_SIGNAL_SESSION" := "true";
                "ONE_SIGNAL_NOTIFICATION_PERMISSION" := "default" ]} in
  let r := internalInit http_page w in
  let rs :=
    sessionInit http_page {[ "__sdkCall" := VBool true ]}
      (mkWorld (config w) false None
         (<["ONE_SIGNAL_NOTIFICATION_PERMISSION" := "default"]> (sessionStorage w))) in
  side_effects (trace r) =
  [ DatabaseGet "Ids" "appId";
    SessionStorageSetItem "ONE_SIGNAL_NOTIFICATION_PERMISSION" "default" ]
  ++ side_effects (trace rs)
  /\ world r = world rs
  /\ registered r = registered rs.
Proof.
  intros w.
  exact (internalInit_with_subdomain http_page w eq_refl eq_refl eq_refl).
Defined.

Lemma sessionInit_world (env : Env) (options : gmap string JsValue) (w : World) :
  config (world (sessionInit env options w)) = config w
  /\ sessionStorage (world (sessionInit env options w)) = sessionStorage w.
Proof.
  destruct (_sessionInitAlreadyRunning w) eqn:Hlatch.
  - by rewrite (sessionInit_running _ _ _ Hlatch).
  - by rewrite (sessionInit_run _ _ _ Hlatch).
Qed.

(** The state [internalInit] leaves: the configuration as it was, and the
    session storage with the permission recorded unless the session
    short-circuit applied. *)
Lemma internalInit_world (env : Env) (w : World) (appId : JsValue) :
  db_get_appId env = Fulfilled appId ->
  config (world (internalInit env w)) = config w
  /\ sessionStorage (world (internalInit env w)) =
     if truthy (getItem w "ONE_SIGNAL_SESSION")
        && negb (truthy (get (config w) "subdomainName"))
        && (String.eqb (notification_permission env) "denied"
            || loose_eq_string (getItem w "ONE_SIGNAL_NOTIFICATION_PERMISSION")
                 (notification_permission env))
     then sessionStorage w
     else <["ONE_SIGNAL_NOTIFICATION_PERMISSION" := notification_permission env]>
            (sessionStorage w).
Proof.
  intros Hdb. rewrite (internalInit_run _ _ _ Hdb). cbv zeta.
  destruct (truthy (getItem w "ONE_SIGNAL_SESSION") && _ && _); [done |].
  destruct (browser_safari env && _); [done |].
  destruct (is_false _ && _).
  - by destruct (isPushNotificationsEnabled env).
  - destruct (negb _); [done |]. cbn [world].
    match goal with |- context [sessionInit ?e ?o ?w0] =>
      destruct (sessionInit_world e o w0) as [Hc Hs]; by rewrite Hc, Hs
    end.
Qed.

(** X20: once per session.  After a first call of [internalInit] whose read
    of the application id resolved (whatever branch it took), a second call
    in the same session, with the session marker set, no subdomain and the
    same notification permission, starts no flow and leaves the state as it
    found it: when its own read of the application id resolves it is stopped
    by the session short-circuit and triggers the terminal event and nothing
    else; when that read is rejected or never settles it triggers no event
    at all. *)
Theorem internalInit_second_call (env1 env2 : Env) (w : World)
    (appId1 : JsValue) (marker : string) :
  db_get_appId env1 = Fulfilled appId1 ->
  sessionStorage w !! "ONE_SIGNAL_SESSION" = Some marker -> marker <> "" ->
  truthy (get (config w) "subdomainName") = false ->
  notification_permission env2 = notification_permission env1 ->
  let w1 := world (internalInit env1 w) in
  let entry := [Log Debug "Called %cinternalInit()"; DatabaseGet "Ids" "appId"] in
  internalInit env2 w1 =
  match db_get_appId env2 with
  | Fulfilled _ =>
      mkStep (Returned tt) w1 (entry ++ [EventTrigger SDK_INITIALIZED]) []
  | Rejected e => mkStep (Threw e) w1 entry []
  | Pending => mkStep Suspended w1 entry []
  end.
Proof.
  intros Hdb1 Hmarker Hne Hsub Hperm w1 entry. subst entry.
  destruct (db_get_appId env2) as [appId2 | e |] eqn:Hdb2;
    [| exact (internalInit_appId_read_rejected _ _ _ Hdb2)
     | exact (internalInit_appId_read_pending _ _ Hdb2)].
  destruct (internalInit_world env1 w appId1 Hdb1) as [Hcfg Hstore].
  fold w1 in Hcfg, Hstore.
  assert (truthy (getItem w "ONE_SIGNAL_SESSION") = true) as Hm.
  { unfold getItem. rewrite Hmarker. simpl.
    by destruct (String.eqb_spec marker ""). }
  rewrite Hm, Hsub in Hstore. simpl in Hstore.
  rewrite (internalInit_run _ _ _ Hdb2). cbv zeta.
  assert (truthy (getItem w1 "ONE_SIGNAL_SESSION")
          && negb (truthy (get (config w1) "subdomainName"))
          && (String.eqb (notification_permission env2) "denied"
              || loose_eq_string (getItem w1 "ONE_SIGNAL_NOTIFICATION_PERMISSION")
                   (notification_permission env2)) = true) as ->; [| done].
  rewrite Hcfg, Hsub, Hperm.
  destruct (String.eqb (notification_permission env1) "denied"
            || loose_eq_string (getItem w "ONE_SIGNAL_NOTIFICATION_PERMISSION")
                 (notification_permission env1)) eqn:Hsame.
  - assert (forall k, getItem w1 k = getItem w k) as Hget.
    { intros k. unfold getItem. by rewrite Hstore. }
    by rewrite !Hget, Hm, Hsame.
  - unfold getItem. rewrite Hstore.
    rewrite lookup_insert_ne by done. rewrite Hmarker, lookup_insert_eq. simpl.
    destruct (String.eqb_spec marker ""); [done |]. simpl.
    by rewrite String.eqb_refl, orb_true_r.
Qed.

Lemma internalInit_second_call_witness :
  let w := mkWorld ∅ false None {[ "ONE_SIGNAL_SESSION" := "true" ]} in
  let w1 := world (internalInit https_page w) in
  internalInit https_page w1 =
  mkStep (Returned tt) w1
    [ Log Debug "Called %cinternalInit()";
      DatabaseGet "Ids" "appId";
      EventTrigger SDK_INITIALIZED ]
    []
  /\ internalInit https_page_without_database w1 =
     mkStep (Threw (OtherError "InvalidStateError")) w1
       [ Log Debug "Called %cinternalInit()"; DatabaseGet "Ids" "appId" ]
       [].
Proof.
  intros w. split.
  - refine (internalInit_second_call https_page https_page w
              (VStr "b2f7f966-d8cc-11e4-bed1-df8f05be55ba") "true"
              eq_refl eq_refl _ eq_refl eq_refl).
    discriminate.
  - refine (internalInit_second_call https_page https_page_without_database w
              (VStr "b2f7f966-d8cc-11e4-bed1-df8f05be55ba") "true"
              eq_refl eq_refl _ eq_refl eq_refl).
    discriminate.
Defined.

(** X21: a call of [internalInit] triggers the terminal event at most
    once, the flow it may start included; when its read of the application id
    fails or never settles it triggers none, starts nothing and changes
    nothing. *)
Theorem internalInit_initialized_at_most_once (env : Env) (w : World) :
  initialized_count (trace (internalInit env w)) <= 1
  /\ ((forall appId : JsValue, db_get_appId env <> Fulfilled appId) ->
      side_effects (trace (internalInit env w)) = [DatabaseGet "Ids" "appId"]
      /\ world (internalInit env w) = w
      /\ registered (internalInit env w) = []).
Proof.
  destruct (db_get_appId env) as [appId | e |] eqn:Hdb.
  - split; [| intros Hnot; by destruct (Hnot appId)].
    rewrite (internalInit_run _ _ _ Hdb). cbv zeta.
    destruct (truthy (getItem w "ONE_SIGNAL_SESSION") && _ && _);
      [unfold initialized_count; simpl; lia |].
    destruct (browser_safari env && _).
    { destruct (negb (isUsingSubscriptionWorkaround env)); unfold initialized_count; simpl; lia. }
    destruct (is_false _ && _).
    { destruct (isPushNotificationsEnabled env) as [v | |];
        [destruct (truthy v && _) |..]; unfold initialized_count; simpl; lia. }
    destruct (negb _); [unfold initialized_count; simpl; lia |].
    cbn [trace]. rewrite initialized_count_app.
    match goal with |- context [sessionInit ?e ?o ?w0] =>
      destruct (_sessionInitAlreadyRunning w0) eqn:Hlatch;
      [ rewrite (sessionInit_running e o w0 Hlatch)
      | rewrite (sessionInit_run_initialized_count e o w0 Hlatch) ]
    end; unfold initialized_count; simpl; lia.
  - rewrite (internalInit_appId_read_rejected _ _ _ Hdb). split; [unfold initialized_count; simpl; lia | done].
  - rewrite (internalInit_appId_read_pending _ _ Hdb). split; [unfold initialized_count; simpl; lia | done].
Qed.

Lemma internalInit_initialized_at_most_once_witness :
  let failing := {|
    browser_safari := false;
    notification_permission := "default";
    visibilityState := "visible";
    serviceWorker_in_navigator := true;
    isUsingSubscriptionWorkaround := false;
    wasHttpsNativePromptDismissed := false;
    isHttpPromptAlreadyShown := false;
    oneSignalApiUrl := "https://onesignal.com/api/v1";
    db_get_appId := Rejected (OtherError "InvalidStateError");
    getAppId := Pending;
    isPushNotificationsEnabled := Pending;
    getNotificationPermission := Pending;
    showHttpPrompt := Pending;
    safari_pushResponse := None;
    requestPermission_result := None
  |} in
  side_effects (trace (internalInit failing (new_tab ∅))) = [DatabaseGet "Ids" "appId"]
  /\ world (internalInit failing (new_tab ∅)) = new_tab ∅
  /\ registered (internalInit failing (new_tab ∅)) = [].
Proof.
  intros failing.
  apply (proj2 (internalInit_initialized_at_most_once failing (new_tab ∅))).
  intros appId. discriminate.
Defined.

(** X22: [internalInit] never changes the configuration, and of the
    session storage it writes one key only, the last-observed permission: any
    other key, the session marker among them, keeps what it had, on every
    branch and whatever the flow it starts. *)
Theorem internalInit_storage (env : Env) (w : World) (k : string) :
  k <> "ONE_SIGNAL_NOTIFICATION_PERMISSION" ->
  config (world (internalInit env w)) = config w
  /\ sessionStorage (world (internalInit env w)) !! k = sessionStorage w !! k.
Proof.
  intros Hk. destruct (db_get_appId env) as [appId | e |] eqn:Hdb.
  - destruct (internalInit_world env w appId Hdb) as [-> ->]. split; [done |].
    destruct (truthy _ && _ && _); [done |]. by rewrite lookup_insert_ne.
  - by rewrite (internalInit_appId_read_rejected _ _ _ Hdb).
  - by rewrite (internalInit_appId_read_pending _ _ Hdb).
Qed.

Lemma internalInit_storage_witness :
  let w := mkWorld ∅ false None {[ "ONE_SIGNAL_SESSION" := "true" ]} in
  config (world (internalInit https_page w)) = ∅
  /\ sessionStorage (world (internalInit https_page w)) !! "ONE_SIGNAL_SESSION"
     = Some "true".
Proof.
  intros w.
  refine (internalInit_storage https_page w "ONE_SIGNAL_SESSION" _). discriminate.
Defined.

(** ** Saving the page title *)

Lemma initSaveState_run (env : Env) (document_title : string)
    (put_appId put_pageTitle : Outcome JsValue) (overridingPageTitle : JsValue)
    (w : World) :
  initSaveState env document_title put_appId put_pageTitle overridingPageTitle w =
  let title :=
    js_or (js_or overridingPageTitle (VStr document_title)) (VStr "Notification") in
  match getAppId env with
  | Fulfilled appId =>
      let stored := [GetAppId; DatabasePut "Ids" (IdRecord "appId" appId)] in
      match put_appId with
      | Fulfilled _ =>
          let titled :=
            stored ++ [DatabasePut "Options" (OptionRecord "pageTitle" title)] in
          match put_pageTitle with
          | Fulfilled _ =>
              mkStep (Returned tt) w
                (titled ++ [Log Info "OneSignal: Set pageTitle to be '${initialPageTitle}'."])
                []
          | Rejected e => mkStep (Threw e) w titled []
          | Pending => mkStep Suspended w titled []
          end
      | Rejected e => mkStep (Threw e) w stored []
      | Pending => mkStep Suspended w stored []
      end
  | Rejected e => mkStep (Threw e) w [GetAppId] []
  | Pending => mkStep Suspended w [GetAppId] []
  end.
Proof.
  unfold initSaveState. eff_norm.
  destruct (getAppId env); [| done | done]. eff_norm.
  destruct put_appId; [| done | done]. eff_norm.
  destruct put_pageTitle; [| done | done]. eff_norm. eff_done. done.
Qed.

(** X23: the page title that is persisted is never empty.  Once the
    application id is known and stored, [initSaveState] stores under
    [pageTitle] the title passed in when it is truthy, otherwise the
    document's title when that is not empty, otherwise ["Notification"]; no
    other option is written. *)
Theorem initSaveState_pageTitle (env : Env) (document_title : string)
    (put_pageTitle : Outcome JsValue) (overridingPageTitle appId ack : JsValue)
    (w : World) (db : gmap string JsValue) :
  getAppId env = Fulfilled appId ->
  let r := initSaveState env document_title (Fulfilled ack) put_pageTitle
             overridingPageTitle w in
  (exists title : JsValue,
     Options_after (trace r) db = <["pageTitle" := title]> db
     /\ truthy title = true
     /\ (truthy overridingPageTitle = true -> title = overridingPageTitle)
     /\ (truthy overridingPageTitle = false -> document_title <> "" ->
         title = VStr document_title)
     /\ (truthy overridingPageTitle = false -> document_title = "" ->
         title = VStr "Notification")).
Proof.
  intros HappId r. subst r. rewrite initSaveState_run, HappId. cbv zeta.
  exists (js_or (js_or overridingPageTitle (VStr document_title)) (VStr "Notification")).
  split; [by destruct put_pageTitle |].
  unfold js_or. destruct (truthy overridingPageTitle) eqn:Hover.
  - rewrite Hover. repeat split; done.
  - simpl. destruct (String.eqb_spec document_title "") as [-> | Hne]; simpl.
    + repeat split; done.
    + destruct (String.eqb_spec document_title ""); [done |]. simpl.
      repeat split; done.
Qed.

Lemma initSaveState_pageTitle_witness :
  exists title : JsValue,
    Options_after
      (trace (initSaveState https_page "" (Fulfilled VUndefined) (Fulfilled VUndefined)
                VUndefined (new_tab ∅))) ∅
    = <["pageTitle" := title]> ∅
    /\ truthy title = true
    /\ (truthy VUndefined = true -> title = VUndefined)
    /\ (truthy VUndefined = false -> "" <> "" -> title = VStr "")
    /\ (truthy VUndefined = false -> "" = "" -> title = VStr "Notification").
Proof.
  exact (initSaveState_pageTitle https_page "" (Fulfilled VUndefined) VUndefined
           (VStr "b2f7f966-d8cc-11e4-bed1-df8f05be55ba") VUndefined (new_tab ∅) ∅
           eq_refl).
Defined.

(** X24: [initSaveState] stops at the first failure.  When the
    application id cannot be read, nothing is written at all; when storing the
    application id fails, the page title is not written; in both cases the
    function fails with that error and the [Options] table is as it was. *)
Theorem initSaveState_failure (env : Env) (document_title : string)
    (put_appId put_pageTitle : Outcome JsValue) (overridingPageTitle : JsValue)
    (w : World) (db : gmap string JsValue) (e : JsError) :
  let r := initSaveState env document_title put_appId put_pageTitle
             overridingPageTitle w in
  (getAppId env = Rejected e ->
   trace r = [GetAppId] /\ completion r = Threw e)
  /\ (forall appId : JsValue,
        getAppId env = Fulfilled appId -> put_appId = Rejected e ->
        trace r = [GetAppId; DatabasePut "Ids" (IdRecord "appId" appId)]
        /\ completion r = Threw e
        /\ Options_after (trace r) db = db).
Proof.
  intros r. subst r. rewrite initSaveState_run. cbv zeta. split.
  - by intros ->.
  - by intros appId -> ->.
Qed.

Lemma initSaveState_failure_witness :
  let failed := Rejected (OtherError "QuotaExceededError") in
  let r := initSaveState https_page "Home" failed (Fulfilled VUndefined)
             VUndefined (new_tab ∅) in
  trace r =
  [ GetAppId;
    DatabasePut "Ids" (IdRecord "appId" (VStr "b2f7f966-d8cc-11e4-bed1-df8f05be55ba")) ]
  /\ completion r = Threw (OtherError "QuotaExceededError")
  /\ Options_after (trace r) ∅ = ∅.
Proof.
  intros failed.
  exact (proj2 (initSaveState_failure https_page "Home" failed (Fulfilled VUndefined)
                  VUndefined (new_tab ∅) ∅ (OtherError "QuotaExceededError"))
           (VStr "b2f7f966-d8cc-11e4-bed1-df8f05be55ba") eq_refl eq_refl).
Defined.

(** ** Equations of the page-level monad *)

Section PageEquations.
Context {A B : Type}.
Implicit Types (k : A -> PageEff B) (w : PageWorld).

Lemma page_bind_ret (a : A) k w : (mret a ≫= k) w = k a w.
Proof. unfold mbind, page_bind, mret, page_ret. simpl. by destruct (k a w). Qed.

Lemma page_bind_assoc {C : Type} (m : PageEff C) (h : C -> PageEff A) k w :
  ((m ≫= h) ≫= k) w = (m ≫= (fun c => h c ≫= k)) w.
Proof.
  unfold mbind, page_bind. destruct (m w) as [[c | e |] w1 t1 g1]; simpl; try done.
  destruct (h c w1) as [[a | e |] w2 t2 g2]; simpl; try done.
  by rewrite !app_assoc.
Qed.

Lemma page_bind_await (p : Outcome A) k w :
  (lift (await p) ≫= k) w =
  match p with
  | Fulfilled a => k a w
  | Rejected e => mkPageStep (Threw e) w [] []
  | Pending => mkPageStep Suspended w [] []
  end.
Proof.
  unfold mbind, page_bind, lift, await. destruct w, p; simpl; try done.
  by destruct (k a _).
Qed.

Lemma page_bind_read (f : World -> A) k w : (lift (read f) ≫= k) w = k (f (core w)) w.
Proof.
  unfold mbind, page_bind, lift, read. destruct w. simpl. by destruct (k _ _).
Qed.
End PageEquations.

Section PageUnitEquations.
Context {B : Type}.
Implicit Types (k : unit -> PageEff B) (w : PageWorld).

Lemma page_bind_act (a : PageAction) k w :
  (page_act a ≫= k) w = page_after_action a (k tt w).
Proof. reflexivity. Qed.

Lemma page_bind_register (t : PageTask) k w :
  (page_register t ≫= k) w = page_after_register t (k tt w).
Proof. reflexivity. Qed.

Lemma page_bind_lift_act (a : Action) k w :
  (lift (act a) ≫= k) w = page_after_action (Core a) (k tt w).
Proof. unfold mbind, page_bind, lift, act. by destruct w. Qed.

Lemma page_bind_set_hook (b : bool) k w :
  (set_usingNativePermissionHook b ≫= k) w =
  page_after_action (SetUsingNativePermissionHook b)
    (k tt (mkPageWorld (core w) (__doNotShowWelcomeNotification w) b)).
Proof. reflexivity. Qed.

Lemma page_bind_set_welcome (b : bool) k w :
  (set_doNotShowWelcomeNotification b ≫= k) w =
  page_after_action (SetDoNotShowWelcomeNotification b)
    (k tt (mkPageWorld (core w) b (_usingNativePermissionHook w))).
Proof. reflexivity. Qed.
End PageUnitEquations.

Lemma lift_act_run (a : Action) (w : PageWorld) :
  lift (act a) w = mkPageStep (Returned tt) w [Core a] [].
Proof. unfold lift, act. by destruct w. Qed.

Lemma lift_await_run {A : Type} (p : Outcome A) (w : PageWorld) :
  lift (await p) w =
  match p with
  | Fulfilled a => mkPageStep (Returned a) w [] []
  | Rejected e => mkPageStep (Threw e) w [] []
  | Pending => mkPageStep Suspended w [] []
  end.
Proof. unfold lift, await. by destruct w, p. Qed.

Ltac page_norm :=
  repeat first
    [ rewrite page_bind_assoc | rewrite page_bind_ret | rewrite page_bind_read
    | rewrite page_bind_act | rewrite page_bind_register | rewrite page_bind_lift_act
    | rewrite page_bind_set_hook | rewrite page_bind_set_welcome
    | rewrite page_bind_await ];
  cbv beta iota;
  cbn [core __doNotShowWelcomeNotification _usingNativePermissionHook negb andb orb].

(** Split on the condition or the outcome at the head of a run. *)
Ltac page_case :=
  match goal with
  | |- context [ mbind _ (if ?c then _ else _) ] => destruct c eqn:?
  | |- context [ (if ?c then _ else _) _ ] => destruct c eqn:?
  | |- context [ match ?x with Fulfilled _ => _ | Rejected _ => _ | Pending => _ end ] =>
      destruct x eqn:?
  end.

Lemma page_act_run (a : PageAction) (w : PageWorld) :
  page_act a w = mkPageStep (Returned tt) w [a] [].
Proof. reflexivity. Qed.

Lemma page_register_run (t : PageTask) (w : PageWorld) :
  page_register t w = mkPageStep (Returned tt) w [] [t].
Proof. reflexivity. Qed.

Lemma page_ret_run {A : Type} (a : A) (w : PageWorld) :
  (mret a : PageEff A) w = mkPageStep (Returned a) w [] [].
Proof. reflexivity. Qed.

Lemma page_after_action_step {A : Type} (a : PageAction) (c : Completion A)
    (w : PageWorld) (tr : list PageAction) (ts : list PageTask) :
  page_after_action a (mkPageStep c w tr ts) = mkPageStep c w (a :: tr) ts.
Proof. reflexivity. Qed.

Lemma page_after_register_step {A : Type} (t : PageTask) (c : Completion A)
    (w : PageWorld) (tr : list PageAction) (ts : list PageTask) :
  page_after_register t (mkPageStep c w tr ts) = mkPageStep c w tr (t :: ts).
Proof. reflexivity. Qed.

(** Finish a normalised run, from the innermost step outwards. *)
Ltac page_done :=
  rewrite ?page_act_run, ?page_register_run, ?page_ret_run, ?lift_act_run,
    ?lift_await_run;
  repeat first [rewrite page_after_action_step | rewrite page_after_register_step].
(** ** After initialisation *)

(** The whole run of [onSdkInitialized]: what it starts before its first
    [await], and what follows when the awaited reads resolve. *)
Lemma onSdkInitialized_run (env : PageEnv) (w : PageWorld) :
  onSdkInitialized env w =
  let hook :=
    navigator_permissions env
    && negb (browser_firefox env && SFleb (Number_browser_version env) forty_five) in
  let hooked := _usingNativePermissionHook w || hook in
  let started :=
    [Core IsPushNotificationsEnabled; Core GetNotificationPermission; GetUserId; IsOptedOut]
    ++ (if hook then [SetUsingNativePermissionHook true; PermissionsQuery] else [])
    ++ [Core GetNotificationPermission] in
  let tasks := StoreInitialValuesThen :: (if hook then [PermissionsQueryThen] else []) in
  match getNotificationPermission (page env) with
  | Fulfilled permission =>
      let w1 :=
        mkPageWorld (core w)
          (__doNotShowWelcomeNotification w || is_Granted permission) hooked in
      let flagged :=
        started
        ++ (if is_Granted permission then [SetDoNotShowWelcomeNotification true] else []) in
      let replays :=
        (if browser_safari (page env) && is_false (get (config (core w)) "autoRegister")
         then [IsPushNotificationsEnabledWithCallback] else [])
        ++ (if isUsingSubscriptionWorkaround (page env)
               && negb (isContinuingBrowserSession env)
            then [Core (Log Debug "(${SdkEnvironment.getWindowEnv().toString()}) Updating session info for HTTP site.");
                  IsPushNotificationsEnabledWithCallback]
            else []) in
      let replay_tasks :=
        (if browser_safari (page env) && is_false (get (config (core w)) "autoRegister")
         then [SafariPushEnabledCallback] else [])
        ++ (if isUsingSubscriptionWorkaround (page env)
               && negb (isContinuingBrowserSession env)
            then [HttpPushEnabledCallback] else []) in
      let finish (worker : list PageAction) (worker_tasks : list PageTask) :=
        mkPageStep (Returned tt) w1
          (flagged ++ worker ++ [ShowNotifyButton] ++ replays
           ++ [CheckAndDoHttpPermissionRequest; CookieSyncerInstall])
          (tasks ++ worker_tasks ++ replay_tasks) in
      if navigator_serviceWorker env && String.eqb (location_protocol env) "https:" then
        match hasInsecureParentOrigin env with
        | Fulfilled insecure =>
            if negb (truthy insecure)
            then finish [HasInsecureParentOrigin; ServiceWorkerGetRegistration]
                        [GetRegistrationThen]
            else finish [HasInsecureParentOrigin] []
        | Rejected e =>
            mkPageStep (Threw e) w1 (flagged ++ [HasInsecureParentOrigin]) tasks
        | Pending =>
            mkPageStep Suspended w1 (flagged ++ [HasInsecureParentOrigin]) tasks
        end
      else finish [] []
  | Rejected e =>
      mkPageStep (Threw e)
        (mkPageWorld (core w) (__doNotShowWelcomeNotification w) hooked) started tasks
  | Pending =>
      mkPageStep Suspended
        (mkPageWorld (core w) (__doNotShowWelcomeNotification w) hooked) started tasks
  end.
Proof.
  unfold onSdkInitialized, storeInitialValues, installNativePromptPermissionChangedHook.
  cbv zeta. destruct w as [c welcome hooked].
  cbn [core __doNotShowWelcomeNotification _usingNativePermissionHook].
  page_norm; repeat (page_case; page_norm); page_done;
    rewrite ?orb_true_r, ?orb_false_r; reflexivity.
Qed.

Lemma run_page_task_snapshot (env : PageEnv) (w : PageWorld) :
  run_page_task env StoreInitialValuesThen w =
  match Promise_all4 (isPushNotificationsEnabled (page env))
                     (getNotificationPermission (page env))
                     (getUserId env) (isOptedOut env) with
  | Fulfilled r =>
      mkPageStep (Returned tt) w
        [ LimitStorePut "subscription.optedOut" r.2;
          Core (DatabasePut "Options" (OptionRecord "isPushEnabled" r.1.1.1));
          Core (DatabasePut "Options" (OptionRecord "notificationPermission" r.1.1.2)) ]
        []
  | Rejected e => mkPageStep (Threw e) w [] []
  | Pending => mkPageStep Suspended w [] []
  end.
Proof.
  unfold run_page_task, Database_put. page_norm.
  destruct (Promise_all4 _ _ _ _); [| done | done]. page_norm. page_done. done.
Qed.

(** X25: the snapshot of [storeInitialValues] is all or nothing.  The four
    reads are started at once and nothing is stored until all of them have
    answered: then the opt-out flag is cached, and the push state and the
    permission that were read are persisted as [isPushEnabled] and
    [notificationPermission].  The user id is read and never used, yet if it
    does not arrive nothing is cached and nothing is persisted. *)
Theorem storeInitialValues_snapshot (env : PageEnv) (w w' : PageWorld)
    (db : gmap string JsValue) :
  storeInitialValues w =
  mkPageStep (Returned tt) w
    [Core IsPushNotificationsEnabled; Core GetNotificationPermission; GetUserId; IsOptedOut]
    [StoreInitialValuesThen]
  /\ (forall isPushEnabled permission userId optedOut : JsValue,
        isPushNotificationsEnabled (page env) = Fulfilled isPushEnabled ->
        getNotificationPermission (page env) = Fulfilled permission ->
        getUserId env = Fulfilled userId ->
        isOptedOut env = Fulfilled optedOut ->
        page_trace (run_page_task env StoreInitialValuesThen w') =
        [ LimitStorePut "subscription.optedOut" optedOut;
          Core (DatabasePut "Options" (OptionRecord "isPushEnabled" isPushEnabled));
          Core (DatabasePut "Options" (OptionRecord "notificationPermission" permission)) ]
        /\ Options_after
             (core_actions (page_trace (run_page_task env StoreInitialValuesThen w'))) db
           = <["notificationPermission" := permission]>
               (<["isPushEnabled" := isPushEnabled]> db))
  /\ ((forall userId : JsValue, getUserId env <> Fulfilled userId) ->
      page_trace (run_page_task env StoreInitialValuesThen w') = []
      /\ page_world (run_page_task env StoreInitialValuesThen w') = w').
Proof.
  split; [| split].
  - unfold storeInitialValues. page_norm. page_done. done.
  - intros isPushEnabled permission userId optedOut H1 H2 H3 H4.
    rewrite run_page_task_snapshot, H1, H2, H3, H4. done.
  - intros Hnot. rewrite run_page_task_snapshot.
    destruct (isPushNotificationsEnabled (page env)),
      (getNotificationPermission (page env)),
      (getUserId env) as [userId | |], (isOptedOut env);
      try done; by destruct (Hnot userId).
Qed.

Lemma storeInitialValues_snapshot_witness :
  let env := sample_page https_page in
  let lost := {|
    page := https_page;
    getUserId := Rejected (OtherError "UnknownError");
    isOptedOut := Fulfilled (VBool false);
    navigator_permissions := true;
    permissions_query := Fulfilled (VObj {[ "state" := VStr "prompt" ]});
    browser_firefox := false;
    Number_browser_version := S754_nan;
    navigator_serviceWorker := true;
    location_protocol := "https:";
    hasInsecureParentOrigin := Fulfilled (VBool false);
    getRegistration := RegistrationFound true;
    windowEnv_is_OneSignalProxyFrame := false;
    isContinuingBrowserSession := false
  |} in
  let w := mkPageWorld (new_tab ∅) false false in
  (page_trace (run_page_task env StoreInitialValuesThen w) =
   [ LimitStorePut "subscription.optedOut" (VBool false);
     Core (DatabasePut "Options" (OptionRecord "isPushEnabled" (VBool true)));
     Core (DatabasePut "Options" (OptionRecord "notificationPermission" (VStr "default"))) ]
   /\ Options_after
        (core_actions (page_trace (run_page_task env StoreInitialValuesThen w))) ∅
      = <["notificationPermission" := VStr "default"]>
          (<["isPushEnabled" := VBool true]> ∅))
  /\ page_trace (run_page_task lost StoreInitialValuesThen w) = []
  /\ page_world (run_page_task lost StoreInitialValuesThen w) = w.
Proof.
  intros env lost w. split.
  - exact (proj1 (proj2 (storeInitialValues_snapshot env w w ∅))
             (VBool true) (VStr "default")
             (VStr "f2d1e1fa-e5b0-4b1e-8a0c-a1b2c3d4e5f6") (VBool false)
             eq_refl eq_refl eq_refl eq_refl).
  - apply (proj2 (proj2 (storeInitialValues_snapshot lost w w ∅))).
    intros userId. discriminate.
Defined.

Lemma run_page_task_registration (env : PageEnv) (w : PageWorld) :
  run_page_task env GetRegistrationThen w =
  match getRegistration env with
  | RegistrationFound true => mkPageStep (Returned tt) w [EstablishServiceWorkerChannel] []
  | RegistrationFound false | NoRegistration => mkPageStep (Returned tt) w [] []
  | RegistrationRejected code =>
      mkPageStep (Returned tt) w
        (if decide (code = Some 9%N) then
           if String.eqb (location_protocol env) "http:"
              || windowEnv_is_OneSignalProxyFrame env
           then [Core (Log Debug "Expected error getting service worker registration on ${location.href}:")]
           else []
         else [Core (Log Error "Error getting Service Worker registration on ${location.href}:")])
        []
  | RegistrationPending => mkPageStep Suspended w [] []
  end.
Proof.
  unfold run_page_task. destruct (getRegistration env) as [[] | | code |]; try done.
  - case_decide; [| by rewrite lift_act_run].
    destruct (_ || _); [by rewrite lift_act_run | done].
  - by rewrite lift_await_run.
Qed.

(** X26: the hook on the permission.  Without the permissions API nothing
    is installed and the state is untouched; with it, the hook is installed,
    the flag being set before the query is made, on every browser that is not
    Firefox, and on Firefox too when its version does not read as a number.
    Once the query has answered with a permission status object the handler
    is set on it, each change of the permission then triggers a
    permission-changed event, and the handler stays; were the answer
    [undefined] or [null], setting the handler would throw and none would be
    installed. *)
Theorem installNativePromptPermissionChangedHook_installs (env : PageEnv)
    (w : PageWorld) :
  let r := installNativePromptPermissionChangedHook env w in
  let installed :=
    mkPageStep (Returned tt)
      (mkPageWorld (core w) (__doNotShowWelcomeNotification w) true)
      [SetUsingNativePermissionHook true; PermissionsQuery]
      [PermissionsQueryThen] in
  (navigator_permissions env = false -> r = mkPageStep (Returned tt) w [] [])
  /\ (navigator_permissions env = true -> browser_firefox env = false -> r = installed)
  /\ (navigator_permissions env = true -> Number_browser_version env = S754_nan ->
      r = installed)
  /\ (forall (env' : PageEnv) (w' : PageWorld) (status : gmap string JsValue),
        permissions_query env' = Fulfilled (VObj status) ->
        run_page_task env' PermissionsQueryThen w' =
        mkPageStep (Returned tt) w' [SetPermissionStatusOnChange]
          [PermissionStatusOnChange])
  /\ (forall (env' : PageEnv) (w' : PageWorld) (status : JsValue),
        permissions_query env' = Fulfilled status ->
        status = VUndefined \/ status = VNull ->
        run_page_task env' PermissionsQueryThen w' =
        mkPageStep (Threw (OtherError "TypeError")) w' [] [])
  /\ (forall (env' : PageEnv) (w' : PageWorld),
        run_page_task env' PermissionStatusOnChange w' =
        mkPageStep (Returned tt) w'
          [Core (TriggerNotificationPermissionChanged None)]
          [PermissionStatusOnChange]).
Proof.
  intros r installed. subst r installed.
  unfold installNativePromptPermissionChangedHook.
  split; [| split; [| split; [| split; [| split]]]].
  - by intros ->.
  - intros -> ->. simpl. page_norm. page_done. done.
  - intros -> ->. rewrite andb_false_r. simpl. page_norm. page_done. done.
  - intros env' w' status Hq. unfold run_page_task. page_norm. rewrite Hq.
    page_norm. page_done. done.
  - intros env' w' status Hq Hstatus. unfold run_page_task. page_norm.
    rewrite Hq. page_norm.
    destruct Hstatus as [-> | ->]; unfold lift, throw; by destruct w'.
  - intros env' w'. unfold run_page_task. page_norm. page_done. done.
Qed.

Lemma installNativePromptPermissionChangedHook_installs_witness :
  let env := sample_page https_page in
  let w := mkPageWorld (new_tab ∅) false false in
  installNativePromptPermissionChangedHook env w =
  mkPageStep (Returned tt) (mkPageWorld (new_tab ∅) false true)
    [SetUsingNativePermissionHook true; PermissionsQuery]
    [PermissionsQueryThen]
  /\ run_page_task env PermissionsQueryThen w =
     mkPageStep (Returned tt) w [SetPermissionStatusOnChange] [PermissionStatusOnChange].
Proof.
  intros env w.
  destruct (installNativePromptPermissionChangedHook_installs env w)
    as (_ & Hinstalled & _ & Hquery & _).
  split.
  - exact (Hinstalled eq_refl eq_refl).
  - exact (Hquery env w {[ "state" := VStr "prompt" ]} eq_refl).
Defined.

(** X27: the ambient steps of [onSdkInitialized] hang on its awaited reads.
    When the permission read (and, on an HTTPS page with service workers, the
    check of the parent origin) resolves, the notify button, the HTTP
    permission request check and the cookie sync are each started once, in
    this order.  When the permission read is rejected, or the check of the
    parent origin is, none of the three is started and the function fails
    with that error, the snapshot still waiting. *)
Theorem onSdkInitialized_ancillary (env : PageEnv) (w : PageWorld) :
  let r := onSdkInitialized env w in
  let ancillary := filter (fun a => is_ancillary a = true) (page_trace r) in
  (forall permission : JsValue,
     getNotificationPermission (page env) = Fulfilled permission ->
     (navigator_serviceWorker env && String.eqb (location_protocol env) "https:" = true ->
      exists insecure : JsValue, hasInsecureParentOrigin env = Fulfilled insecure) ->
     ancillary = [ShowNotifyButton; CheckAndDoHttpPermissionRequest; CookieSyncerInstall]
     /\ page_completion r = Returned tt)
  /\ (forall e : JsError,
        getNotificationPermission (page env) = Rejected e ->
        ancillary = [] /\ page_completion r = Threw e
        /\ StoreInitialValuesThen ∈ page_registered r)
  /\ (forall (permission : JsValue) (e : JsError),
        getNotificationPermission (page env) = Fulfilled permission ->
        navigator_serviceWorker env && String.eqb (location_protocol env) "https:" = true ->
        hasInsecureParentOrigin env = Rejected e ->
        ancillary = [] /\ page_completion r = Threw e
        /\ StoreInitialValuesThen ∈ page_registered r).
Proof.
  intros r ancillary. subst r ancillary. rewrite onSdkInitialized_run. cbv zeta.
  split; [| split].
  - intros permission -> Hcheck.
    destruct (navigator_serviceWorker env && String.eqb (location_protocol env) "https:").
    + destruct (Hcheck eq_refl) as [insecure ->].
      destruct (navigator_permissions env && _), (is_Granted permission),
        (negb (truthy insecure)), (browser_safari (page env) && _),
        (isUsingSubscriptionWorkaround (page env) && _); done.
    + destruct (navigator_permissions env && _), (is_Granted permission),
        (browser_safari (page env) && _),
        (isUsingSubscriptionWorkaround (page env) && _); done.
  - intros e ->. destruct (navigator_permissions env && _);
      (split; [done |]; split; [done |]; apply list_elem_of_here).
  - intros permission e -> -> ->.
    destruct (navigator_permissions env && _), (is_Granted permission);
      (split; [done |]; split; [done |]; apply list_elem_of_here).
Qed.

Lemma onSdkInitialized_ancillary_witness :
  let env := sample_page https_page in
  let r := onSdkInitialized env (mkPageWorld (new_tab ∅) false false) in
  filter (fun a => is_ancillary a = true) (page_trace r)
  = [ShowNotifyButton; CheckAndDoHttpPermissionRequest; CookieSyncerInstall]
  /\ page_completion r = Returned tt.
Proof.
  intros env.
  refine (proj1 (onSdkInitialized_ancillary env (mkPageWorld (new_tab ∅) false false))
            (VStr "default") eq_refl _).
  intros _. exists (VBool false). reflexivity.
Defined.

(** X28: [onSdkInitialized] only ever raises the two page flags.  The
    welcome notification is suppressed exactly when it was suppressed before
    or the permission read answers ["granted"]; the native-hook flag is set
    exactly when it was set before or the hook is installed; neither is ever
    cleared, and the configuration, the latch and the session storage are
    left as they were. *)
Theorem onSdkInitialized_flags (env : PageEnv) (w : PageWorld) :
  let r := onSdkInitialized env w in
  core (page_world r) = core w
  /\ __doNotShowWelcomeNotification (page_world r)
     = __doNotShowWelcomeNotification w
       || match getNotificationPermission (page env) with
          | Fulfilled permission => is_Granted permission
          | _ => false
          end
  /\ _usingNativePermissionHook (page_world r)
     = _usingNativePermissionHook w
       || (navigator_permissions env
           && negb (browser_firefox env
                    && SFleb (Number_browser_version env) forty_five)).
Proof.
  intros r. subst r. rewrite onSdkInitialized_run. cbv zeta.
  destruct (getNotificationPermission (page env)) as [permission | e |].
  - destruct (navigator_serviceWorker env && _).
    + destruct (hasInsecureParentOrigin env) as [insecure | e |];
        [destruct (negb (truthy insecure)) | |]; done.
    + done.
  - by rewrite orb_false_r.
  - by rewrite orb_false_r.
Qed.

(** X29: the service worker registration.  Once the permission read has
    resolved, [onSdkInitialized] asks for the registration exactly when the
    page has service workers, is served over HTTPS and the check of its parent
    origin answers that it is not insecure.  On such a page, a channel to the
    worker is set up only for a registration with an active worker; a
    rejection with code 9 (insecure origin) is logged at debug level in the
    proxy frame and passes without a trace anywhere else; any other rejection
    is logged as an error; none of them fails the callback. *)
Theorem onSdkInitialized_service_worker (env : PageEnv) (w : PageWorld)
    (permission : JsValue) :
  getNotificationPermission (page env) = Fulfilled permission ->
  asks_registration (page_trace (onSdkInitialized env w))
  = navigator_serviceWorker env && String.eqb (location_protocol env) "https:"
    && match hasInsecureParentOrigin env with
       | Fulfilled insecure => negb (truthy insecure)
       | _ => false
       end
  /\ (forall (env' : PageEnv) (w' : PageWorld),
        location_protocol env' = "https:" ->
        let rt := run_page_task env' GetRegistrationThen w' in
        page_world rt = w'
        /\ page_registered rt = []
        /\ page_completion rt =
           match getRegistration env' with
           | RegistrationPending => Suspended
           | _ => Returned tt
           end
        /\ page_trace rt =
           match getRegistration env' with
           | RegistrationFound active =>
               if active then [EstablishServiceWorkerChannel] else []
           | NoRegistration | RegistrationPending => []
           | RegistrationRejected code =>
               if decide (code = Some 9%N) then
                 if windowEnv_is_OneSignalProxyFrame env'
                 then [Core (Log Debug "Expected error getting service worker registration on ${location.href}:")]
                 else []
               else [Core (Log Error "Error getting Service Worker registration on ${location.href}:")]
           end).
Proof.
  intros Hpermission. split.
  - rewrite onSdkInitialized_run, Hpermission. cbv zeta.
    destruct (navigator_serviceWorker env && String.eqb (location_protocol env) "https:").
    + destruct (hasInsecureParentOrigin env) as [insecure | e |];
        [destruct (negb (truthy insecure)) | |];
        destruct (navigator_permissions env && _), (is_Granted permission);
        try done;
        destruct (browser_safari (page env) && _),
          (isUsingSubscriptionWorkaround (page env) && _); done.
    + destruct (navigator_permissions env && _), (is_Granted permission),
        (browser_safari (page env) && _),
        (isUsingSubscriptionWorkaround (page env) && _); done.
  - intros env' w' Hhttps rt. subst rt. rewrite run_page_task_registration, Hhttps.
    destruct (getRegistration env') as [[] | | code |]; try done; by case_decide.
Qed.

Lemma onSdkInitialized_service_worker_witness :
  let env := sample_page https_page in
  asks_registration
    (page_trace (onSdkInitialized env (mkPageWorld (new_tab ∅) false false))) = true
  /\ page_trace (run_page_task env GetRegistrationThen
                   (mkPageWorld (new_tab ∅) false false))
     = [EstablishServiceWorkerChannel].
Proof.
  intros env.
  destruct (onSdkInitialized_service_worker env (mkPageWorld (new_tab ∅) false false)
              (VStr "default") eq_refl) as [Hasks Hthen].
  split; [exact Hasks |].
  exact (proj2 (proj2 (proj2 (Hthen env (mkPageWorld (new_tab ∅) false false)
                                eq_refl)))).
Defined.

(** X30: the two replays.  Once its awaited reads have resolved,
    [onSdkInitialized] asks for the push state on behalf of Safari exactly
    when the browser is Safari and [autoRegister] is [false] itself, and on
    behalf of the HTTP session exactly when the subscription workaround is in
    use and the browser session is a new one.  When the answer is that push is
    enabled, the first does what [sessionInit] does for the SDK's own call,
    and the second reads the application id and registers with it and no
    subscription; when push is not enabled neither does anything. *)
Theorem onSdkInitialized_replays (env : PageEnv) (w : PageWorld)
    (permission : JsValue) :
  getNotificationPermission (page env) = Fulfilled permission ->
  (navigator_serviceWorker env && String.eqb (location_protocol env) "https:" = true ->
   exists insecure : JsValue, hasInsecureParentOrigin env = Fulfilled insecure) ->
  let r := onSdkInitialized env w in
  replays_on_safari (page_registered r)
  = browser_safari (page env) && is_false (get (config (core w)) "autoRegister")
  /\ updates_http_session (page_registered r)
     = isUsingSubscriptionWorkaround (page env) && negb (isContinuingBrowserSession env)
  /\ (forall (env' : PageEnv) (w' : PageWorld) (enabled : JsValue),
        isPushNotificationsEnabled (page env') = Fulfilled enabled ->
        run_page_task env' SafariPushEnabledCallback w' =
        (if truthy enabled
         then lift (sessionInit (page env') {[ "__sdkCall" := VBool true ]}) w'
         else mkPageStep (Returned tt) w' [] [])
        /\ run_page_task env' HttpPushEnabledCallback w' =
           (if truthy enabled
            then mkPageStep (Returned tt) w' [Core GetAppId] [HttpGetAppIdThen]
            else mkPageStep (Returned tt) w' [] []))
  /\ (forall (env' : PageEnv) (w' : PageWorld) (appId : JsValue),
        getAppId (page env') = Fulfilled appId ->
        run_page_task env' HttpGetAppIdThen w' =
        mkPageStep (Returned tt) w' [RegisterWithOneSignalNull appId] []).
Proof.
  intros Hpermission Hcheck r. subst r.
  split; [| split; [| split]].
  - rewrite onSdkInitialized_run, Hpermission. cbv zeta.
    destruct (navigator_serviceWorker env && String.eqb (location_protocol env) "https:").
    + destruct (Hcheck eq_refl) as [insecure ->].
      destruct (navigator_permissions env && _), (negb (truthy insecure)),
        (browser_safari (page env) && _),
        (isUsingSubscriptionWorkaround (page env) && _); done.
    + destruct (navigator_permissions env && _), (browser_safari (page env) && _),
        (isUsingSubscriptionWorkaround (page env) && _); done.
  - rewrite onSdkInitialized_run, Hpermission. cbv zeta.
    destruct (navigator_serviceWorker env && String.eqb (location_protocol env) "https:").
    + destruct (Hcheck eq_refl) as [insecure ->].
      destruct (navigator_permissions env && _), (negb (truthy insecure)),
        (browser_safari (page env) && _),
        (isUsingSubscriptionWorkaround (page env) && _); done.
    + destruct (navigator_permissions env && _), (browser_safari (page env) && _),
        (isUsingSubscriptionWorkaround (page env) && _); done.
  - intros env' w' enabled Henabled. unfold run_page_task. rewrite Henabled.
    destruct (truthy enabled); [| done]. split; [done |].
    page_norm. page_done. done.
  - intros env' w' appId HappId. unfold run_page_task. page_norm. rewrite HappId.
    page_done. done.
Qed.

Lemma onSdkInitialized_replays_witness :
  let env := sample_page safari_page in
  let w := mkPageWorld (new_tab {[ "autoRegister" := VBool false ]}) false false in
  replays_on_safari (page_registered (onSdkInitialized env w)) = true
  /\ updates_http_session (page_registered (onSdkInitialized env w)) = false
  /\ run_page_task env SafariPushEnabledCallback w
     = lift (sessionInit safari_page {[ "__sdkCall" := VBool true ]}) w.
Proof.
  intros env w.
  assert (navigator_serviceWorker env && String.eqb (location_protocol env) "https:" = true ->
          exists insecure : JsValue, hasInsecureParentOrigin env = Fulfilled insecure)
    as Hcheck.
  { intros _. exists (VBool false). reflexivity. }
  destruct (onSdkInitialized_replays env w (VStr "granted") eq_refl Hcheck)
    as (Hsafari & Hhttp & Hcallbacks & _).
  split; [exact Hsafari |]. split; [exact Hhttp |].
  exact (proj1 (Hcallbacks env w (VBool true) eq_refl)).
Defined.
